(** * Cell-line screening simulator: model of [cell_line_screening.py]

    The Python program simulates a CHO clone screening campaign.  This
    development embeds its two classes, [CellLineClone] and
    [AutomatedScreening], and proves the properties of the biological
    model (growth, antibody production, scoring) and of the campaign
    driver (generation, harvest, selection).

    Numbers.  Python [float] values are modelled as real numbers ([R]):
    the arithmetic is the exact one, [np.exp] is the real exponential,
    [round(x, k)] is rounding to the nearest multiple of [10^-k] with
    halves going to the even neighbour.  Binary rounding error, infinities
    and NaN are outside the model.  Python [int] values are [Z] (or [nat]
    for the indices produced by [range]).

    Effects.  The process-wide generator of the [random] module is an
    explicit state that every drawing function threads.  Methods are state
    transformers over the object they receive as [self] together with the
    generator, so that "does not mutate" and "draws nothing" are
    statements about the returned state.  Exceptions are an explicit
    [outcome].  Console output ([print]) is not modelled, except that the
    expressions evaluated inside the printed f-strings are, where they can
    raise. *)

From Stdlib Require Import Reals Lra Lia ZArith List String Ascii Bool.
From Stdlib Require Import Permutation Sorted FinFun DecimalString DecimalNat Decimal.
Import ListNotations.

Open Scope R_scope.

(** ** Python built-ins *)

(** [round(x, ndigits)] on a float: nearest multiple of [10^-ndigits],
    ties to even. *)
Definition round_half_even (x : R) : Z :=
  let f := Zfloor x in
  let d := x - IZR f in
  if Rlt_dec d (1 / 2) then f
  else if Rlt_dec (1 / 2) d then (f + 1)%Z
  else if Z.even f then f else (f + 1)%Z.

Definition round (x : R) (ndigits : nat) : R :=
  IZR (round_half_even (x * 10 ^ ndigits)) / 10 ^ ndigits.

(** [range(n)] for an integer [n]: empty when [n <= 0]. *)
Definition range (n : Z) : list nat := seq 0 (Z.to_nat n).

(** Left-pads a decimal numeral with zeros up to [width] digits. *)
Fixpoint zero_pad (k : nat) (d : uint) : uint :=
  match k with
  | O => d
  | S k' => D0 (zero_pad k' d)
  end.

(** The format specification [{n:03d}] on a non-negative integer. *)
Definition format_03d (n : nat) : string :=
  let d := Nat.to_uint n in
  NilEmpty.string_of_uint (zero_pad (3 - Decimal.nb_digits d) d).

(** The exceptions the program can raise. *)
Inductive exception : Type :=
  | IndexError
  | KeyError.

Inductive outcome (A : Type) : Type :=
  | Ok (a : A)
  | Raise (e : exception).
Arguments Ok {A} a.
Arguments Raise {A} e.

(** State transformers. *)
Definition State (S A : Type) : Type := S -> A * S.

Definition ret {S A : Type} (a : A) : State S A := fun s => (a, s).

Definition bind {S A B : Type} (m : State S A) (k : A -> State S B) : State S B :=
  fun s => let (a, s') := m s in k a s'.

Definition get {S : Type} : State S S := fun s => (s, s).

Definition put {S : Type} (s : S) : State S unit := fun _ => (tt, s).

Declare Scope state_scope.
Delimit Scope state_scope with state.
Notation "x <- m ;; k" := (bind m (fun x => k))
  (at level 61, m at next level, right associativity) : state_scope.
Notation "' p <- m ;; k" := (bind m (fun x => let p := x in k))
  (at level 61, p pattern, m at next level, right associativity) : state_scope.

(** ** The [random] module

    The generator is a cursor into a fixed sequence of raw draws.  Every
    primitive consumes one draw.  [gauss] reads it as a standard normal
    variate, which may be any real number; [random] reads its fractional
    part, a number of [[0, 1)]. *)
Module random.

Record state : Type := { entropy : nat -> R; cursor : nat }.

Definition next : State state R :=
  fun g => (entropy g (cursor g),
            {| entropy := entropy g; cursor := S (cursor g) |}).

Definition random : State state R :=
  (x <- next ;; ret (frac_part x))%state.

(** [mu + z * sigma] *)
Definition gauss (mu sigma : R) : State state R :=
  (z <- next ;; ret (mu + z * sigma))%state.

(** [a + (b - a) * random()] *)
Definition uniform (a b : R) : State state R :=
  (u <- random ;; ret (a + (b - a) * u))%state.

(** [seq[floor(random() * len(seq))]] on the non-empty sequence
    [x :: xs]. *)
Definition choice {A : Type} (x : A) (xs : list A) : State state A :=
  (u <- random ;;
   ret (nth (Z.to_nat (Zfloor (u * INR (List.length (x :: xs))))) (x :: xs) x))%state.

End random.

(** ** class CellLineClone *)

Inductive glycosylation : Type := Optimal | Good | Poor.

Definition glycosylation_eqb (a b : glycosylation) : bool :=
  match a, b with
  | Optimal, Optimal | Good, Good | Poor, Poor => true
  | _, _ => false
  end.

Record CellLineClone : Type := {
  id : string;
  parent : string;
  base_titer : R;
  growth_rate : R;
  viability : R;
  stability : bool;
  glycosylation_pattern : glycosylation;
  aggregation_level : R;
  day0_density : R;
  day3_density : option R;
  day7_density : option R;
  day7_viability : option R;
  day7_titer : option R
}.

(** [CellLineClone.__init__(clone_id, parent_line)] *)
Definition CellLineClone_init (clone_id parent_line : string)
  : State random.state CellLineClone :=
  (base_titer0 <- random.gauss 2.5 1.5 ;;
   growth_rate0 <- random.gauss 0.032 0.008 ;;
   viability0 <- random.gauss 94 6 ;;
   stability0 <- random.choice true [true; true; false] ;;
   glycosylation_pattern0 <- random.choice Optimal [Optimal; Good; Poor] ;;
   aggregation_level0 <- random.uniform 0.5 8.0 ;;
   ret {| id := clone_id;
          parent := parent_line;
          base_titer := Rmax 0.1 (Rmin 6.0 base_titer0);
          growth_rate := Rmax 0.015 (Rmin 0.050 growth_rate0);
          viability := Rmax 60 (Rmin 99 viability0);
          stability := stability0;
          glycosylation_pattern := glycosylation_pattern0;
          aggregation_level := aggregation_level0;
          day0_density := 0.5e6;
          day3_density := None;
          day7_density := None;
          day7_viability := None;
          day7_titer := None |})%state.

(** A method runs on its receiver and the generator. *)
Definition Method (A : Type) : Type := State (CellLineClone * random.state) A.

Definition self : Method CellLineClone := fun w => (fst w, w).

Definition draw {A : Type} (m : State random.state A) : Method A :=
  fun w => let (a, g) := m (snd w) in (a, (fst w, g)).

(** [CellLineClone.grow(days)] *)
Definition grow (days : R) : Method (R * R) :=
  (this <- self ;;
   let time_hours := days * 24 in
   let peak_density := 8e6 in
   let density := day0_density this * exp (growth_rate this * time_hours) in
   let density := Rmin density peak_density in
   let viability' := viability this - days * 0.5 in
   let viability' := Rmax 60 viability' in
   ret (density, viability'))%state.

(** [CellLineClone.produce_antibody(days)] *)
Definition produce_antibody (days : R) : Method R :=
  ('(density, viability') <- grow days ;;
   this <- self ;;
   let qP := base_titer this * 10 in
   let titer := (base_titer this * days / 7) * (viability' / 100) in
   noise <- draw (random.gauss 1.0 0.1) ;;
   let titer := titer * noise in
   ret (Rmax 0.1 titer))%state.

(** Truth value of an attribute that holds [None] or a float: [None] and
    [0.0] are false. *)
Definition truthy (x : option R) : bool :=
  match x with
  | None => false
  | Some v => if Req_dec_T v 0 then false else true
  end.

(** The float held by an attribute known not to be [None]. *)
Definition the (x : option R) : R :=
  match x with Some v => v | None => 0 end.

(** [CellLineClone.score()] *)
Definition score : Method R :=
  (this <- self ;;
   let titer_score :=
     if truthy (day7_titer this) then Rmin 1.0 (the (day7_titer this) / 5.0) else 0 in
   let viability_score :=
     if truthy (day7_viability this) then the (day7_viability this) / 100 else 0 in
   let growth_score := Rmin 1.0 (growth_rate this / 0.045) in
   let stability_bonus := if stability this then 0.2 else 0 in
   let quality_bonus :=
     if glycosylation_eqb (glycosylation_pattern this) Optimal then 0.15 else 0 in
   let quality_penalty :=
     if Rgt_dec (aggregation_level this) 5.0 then -0.1 else 0 in
   let total_score :=
     titer_score * 0.40 +
     viability_score * 0.25 +
     growth_score * 0.10 +
     stability_bonus +
     quality_bonus +
     quality_penalty in
   ret (round total_score 3))%state.

(** Attribute assignments [clone.day3_density = ...] and the like. *)
Definition set_day3_density (c : CellLineClone) (v : R) : CellLineClone :=
  {| id := id c; parent := parent c; base_titer := base_titer c;
     growth_rate := growth_rate c; viability := viability c;
     stability := stability c;
     glycosylation_pattern := glycosylation_pattern c;
     aggregation_level := aggregation_level c;
     day0_density := day0_density c;
     day3_density := Some v;
     day7_density := day7_density c;
     day7_viability := day7_viability c;
     day7_titer := day7_titer c |}.

Definition set_day7 (c : CellLineClone) (density viability' titer : R)
  : CellLineClone :=
  {| id := id c; parent := parent c; base_titer := base_titer c;
     growth_rate := growth_rate c; viability := viability c;
     stability := stability c;
     glycosylation_pattern := glycosylation_pattern c;
     aggregation_level := aggregation_level c;
     day0_density := day0_density c;
     day3_density := day3_density c;
     day7_density := Some density;
     day7_viability := Some viability';
     day7_titer := Some titer |}.

(** ** pandas

    A [DataFrame] built from the harvest records is a list of rows that
    all carry the nine columns.  [DataFrame.nlargest(n, 'Score')] is
    library code, modelled from its documentation: the first [n] rows in
    descending order of the column, the first occurrences coming first
    among equal values (the default [keep='first']); no row when
    [n <= 0], every row when [n] exceeds the number of rows. *)
Record ResultRow : Type := {
  Clone_ID : string;
  Titer : R;
  Viability : R;
  VCD : R;
  Growth_Rate : R;
  Stable : string;
  Glycosylation : glycosylation;
  Aggregates : R;
  Score : R
}.

Abbreviation DataFrame := (list ResultRow).

Fixpoint insert_desc (r : ResultRow) (l : DataFrame) : DataFrame :=
  match l with
  | [] => [r]
  | r' :: l' =>
      if Rlt_dec (Score r) (Score r') then r' :: insert_desc r l' else r :: l
  end.

Definition sort_desc (df : DataFrame) : DataFrame :=
  fold_right insert_desc [] df.

Definition nlargest (n : Z) (df : DataFrame) : DataFrame :=
  firstn (Z.to_nat n) (sort_desc df).

(** ** class AutomatedScreening *)

Inductive LogEntry : Type :=
  | seeded (day : Z) (clone_id : string) (volume_ul : Z) (density_cells_ml : R)
  | fed_and_sampled (day : Z) (clone_id : string)
      (feed_volume_ul sample_volume_ul : Z) (density viability' : R).

Record AutomatedScreening : Type := {
  num_clones : Z;
  plate_format : string;
  clones : list CellLineClone;
  screening_log : list LogEntry;
  start_date : Z
}.

(** A list comprehension, or a [for] loop that rebinds each element, over
    a body with effects: elements are visited from left to right. *)
Fixpoint for_each {S A B : Type} (body : A -> State S B) (l : list A)
  : State S (list B) :=
  match l with
  | [] => ret []
  | a :: l' =>
      (b <- body a ;; bs <- for_each body l' ;; ret (b :: bs))%state
  end.

(** The constructor call [AutomatedScreening(num_clones, plate_format)],
    which runs [__init__]; [now] is what [datetime.now()] returns.  Like
    every call it either returns the object or raises. *)
Definition AutomatedScreening_init (num_clones0 : Z) (plate_format0 : string)
  (now : Z) : State random.state (outcome AutomatedScreening) :=
  (clones0 <- for_each
       (fun i => CellLineClone_init ("Clone_" ++ format_03d (i + 1)) "CHO-K1")
       (range num_clones0) ;;
   ret (Ok {| num_clones := num_clones0;
              plate_format := plate_format0;
              clones := clones0;
              screening_log := [];
              start_date := now |}))%state.

(** A campaign step runs on the campaign and the generator, and either
    returns or raises; what it mutated before raising stays mutated. *)
Definition Step (A : Type) : Type :=
  State (AutomatedScreening * random.state) (outcome A).

Definition with_clones_log (this : AutomatedScreening)
  (cs : list CellLineClone) (log : list LogEntry) : AutomatedScreening :=
  {| num_clones := num_clones this;
     plate_format := plate_format this;
     clones := cs;
     screening_log := log;
     start_date := start_date this |}.

(** [day_0_seed_plates()]: [self.clones[0]] in the closing report raises
    on an empty population. *)
Definition day_0_seed_plates : Step unit :=
  fun w =>
    let (this, g) := w in
    let log :=
      fold_left
        (fun log clone =>
           log ++ [seeded 0 (id clone) 200 (day0_density clone)])
        (clones this) (screening_log this) in
    let this := with_clones_log this (clones this) log in
    match clones this with
    | [] => (Raise IndexError, (this, g))
    | _ :: _ => (Ok tt, (this, g))
    end.

(** [day_3_feed_and_sample()] *)
Definition day_3_body (clone : CellLineClone)
  : State (list LogEntry * random.state) CellLineClone :=
  fun s =>
    let (log, g) := s in
    let '((density, viability'), (clone, g)) := grow 3 (clone, g) in
    let clone := set_day3_density clone density in
    (clone,
     (log ++ [fed_and_sampled 3 (id clone) 50 50 density viability'], g)).

Definition day_3_feed_and_sample : Step unit :=
  fun w =>
    let (this, g) := w in
    let '(cs, (log, g)) :=
      for_each day_3_body (clones this) (screening_log this, g) in
    (Ok tt, (with_clones_log this cs log, g)).

(** [day_7_harvest_and_analyze()]: an empty [results] list gives a frame
    without columns, and [df['Titer (g/L)']] in the statistics raises. *)
Definition day_7_body (clone : CellLineClone)
  : State (DataFrame * random.state) CellLineClone :=
  fun s =>
    let (results, g) := s in
    let '((density, viability'), (clone, g)) := grow 7 (clone, g) in
    let '(titer, (clone, g)) := produce_antibody 7 (clone, g) in
    let clone := set_day7 clone density viability' titer in
    let '(score0, (clone, g)) := score (clone, g) in
    (clone,
     (results ++
        [{| Clone_ID := id clone;
            Titer := round titer 2;
            Viability := round viability' 1;
            VCD := round (density / 1e6) 2;
            Growth_Rate := round (growth_rate clone) 4;
            Stable := if stability clone then "Yes" else "No";
            Glycosylation := glycosylation_pattern clone;
            Aggregates := round (aggregation_level clone) 1;
            Score := score0 |}], g)).

Definition day_7_harvest_and_analyze : Step DataFrame :=
  fun w =>
    let (this, g) := w in
    let '(cs, (results, g)) := for_each day_7_body (clones this) ([], g) in
    let this := with_clones_log this cs (screening_log this) in
    let df := results in
    match df with
    | [] => (Raise KeyError, (this, g))
    | _ :: _ => (Ok df, (this, g))
    end.

(** [select_top_clones(df, n)] *)
Definition select_top_clones (df : DataFrame) (n : Z) : Step DataFrame :=
  fun w =>
    let top_clones := nlargest n df in
    (Ok top_clones, w).

(** Sequencing of steps: an exception ends the sequence. *)
Definition and_then {A B : Type} (m : Step A) (k : A -> Step B) : Step B :=
  fun w =>
    match m w with
    | (Ok a, w') => k a w'
    | (Raise e, w') => (Raise e, w')
    end.

(** [run_full_screening_campaign()], up to the results it returns. *)
Definition run_full_screening_campaign : Step (DataFrame * DataFrame) :=
  and_then day_0_seed_plates (fun _ =>
  and_then day_3_feed_and_sample (fun _ =>
  and_then day_7_harvest_and_analyze (fun results_df =>
  and_then (select_top_clones results_df 10) (fun top_clones =>
  ret (Ok (results_df, top_clones)))))).

(** ** The specification's formulas, as the specification words them *)

Definition grow_spec (c : CellLineClone) (days : R) : R * R :=
  (Rmin (day0_density c * exp (growth_rate c * days * 24)) 8e6,
   Rmax 60 (viability c - days * 0.5)).

Definition raw_titer (c : CellLineClone) (days : R) : R :=
  (base_titer c * days / 7) * (snd (grow_spec c days) / 100).

Definition aggregation_penalty (a : R) : R :=
  if Rlt_dec 5.0 a then -0.10 else 0.

Definition score_spec (c : CellLineClone) : R :=
  let t := match day7_titer c with
           | Some x => Rmin 1.0 (x / 5.0)
           | None => 0
           end in
  let v := match day7_viability c with
           | Some x => x / 100
           | None => 0
           end in
  let g := Rmin 1.0 (growth_rate c / 0.045) in
  let s := if stability c then 0.20 else 0 in
  let q := match glycosylation_pattern c with
           | Optimal => 0.15
           | _ => 0
           end in
  let p := aggregation_penalty (aggregation_level c) in
  round (0.40 * t + 0.25 * v + 0.10 * g + s + q + p) 3.

(** What the generator guarantees of a clone, and what the campaign steps
    keep: the clamp intervals of the intrinsic parameters, the seeding
    density, and Day-7 observations that, once harvested, are a floored
    titer and a viability between the floor and the baseline ceiling. *)
Definition opt_all (P : R -> Prop) (x : option R) : Prop :=
  match x with Some v => P v | None => True end.

Record clone_ok (c : CellLineClone) : Prop := {
  ok_base_titer : 0.1 <= base_titer c <= 6.0;
  ok_growth_rate : 0.015 <= growth_rate c <= 0.050;
  ok_viability : 60 <= viability c <= 99;
  ok_aggregation : 0.5 <= aggregation_level c <= 8.0;
  ok_day0 : day0_density c = 0.5e6;
  ok_day7_titer : opt_all (fun t => 0.1 <= t) (day7_titer c);
  ok_day7_viability : opt_all (fun v => 60 <= v <= 99) (day7_viability c)
}.

Definition unobserved (c : CellLineClone) : Prop :=
  day3_density c = None /\ day7_density c = None /\
  day7_viability c = None /\ day7_titer c = None.

Definition harvested (c : CellLineClone) : Prop :=
  day7_density c <> None /\ day7_viability c <> None /\ day7_titer c <> None.

(** An identifier of the documented form for the clone of rank [k]:
    [Clone_] followed by the decimal numeral of [k], left-padded with
    zeros to three digits when it has fewer. *)
Definition is_clone_id (k : nat) (s : string) : Prop :=
  exists digits : string,
    s = ("Clone_" ++ digits)%string /\
    String.length digits = Nat.max 3 (Decimal.nb_digits (Nat.to_uint k)) /\
    option_map Nat.of_uint (NilEmpty.uint_of_string digits) = Some k.

(** The attributes of a freshly generated clone, as documented. *)
Definition as_generated (c : CellLineClone) : Prop :=
  0.1 <= base_titer c <= 6.0 /\
  0.015 <= growth_rate c <= 0.050 /\
  60 <= viability c <= 99 /\
  0.5 <= aggregation_level c <= 8.0 /\
  day0_density c = 0.5e6 /\
  day3_density c = None /\ day7_density c = None /\
  day7_viability c = None /\ day7_titer c = None.

(** The harvest record of a clone whose Day-7 observations have just been
    stored. *)
Definition harvest_row (c : CellLineClone) : ResultRow :=
  {| Clone_ID := id c;
     Titer := round (the (day7_titer c)) 2;
     Viability := round (the (day7_viability c)) 1;
     VCD := round (the (day7_density c) / 1e6) 2;
     Growth_Rate := round (growth_rate c) 4;
     Stable := if stability c then "Yes" else "No";
     Glycosylation := glycosylation_pattern c;
     Aggregates := round (aggregation_level c) 1;
     Score := score_spec c |}.

(** The clone after the harvest loop has visited it, given the noise
    value drawn for it. *)
Definition harvest_clone (c : CellLineClone) (noise : R) : CellLineClone :=
  set_day7 c (fst (grow_spec c 7)) (snd (grow_spec c 7))
    (Rmax 0.1 (raw_titer c 7 * noise)).

(** The three timepoint steps, callable in any order on a campaign; what a
    step returns or raises is dropped, what it did to the campaign and to
    the generator is kept. *)
Inductive stage : Type := Seed | Feed | Harvest.

Definition run_stage (st : stage) (w : AutomatedScreening * random.state)
  : AutomatedScreening * random.state :=
  match st with
  | Seed => snd (day_0_seed_plates w)
  | Feed => snd (day_3_feed_and_sample w)
  | Harvest => snd (day_7_harvest_and_analyze w)
  end.

Definition run_stages (l : list stage) (w : AutomatedScreening * random.state)
  : AutomatedScreening * random.state :=
  fold_left (fun w st => run_stage st w) l w.

(** Rows in non-increasing order of score. *)
Definition score_ge (a b : ResultRow) : Prop := Score b <= Score a.

Definition has_score (s : R) (r : ResultRow) : bool :=
  if Req_dec_T (Score r) s then true else false.

(** ** The campaign summary

    [results_df.loc[results_df['Score'].idxmax(), 'Clone ID']], the best
    clone of the closing summary.  [Series.idxmax] is library code,
    modelled from its documentation: the label of the first occurrence of
    the maximum, found here by a scan from the left that replaces the
    candidate only by a strictly larger score.  On an empty column pandas
    raises; the summary is only reached with a non-empty table, and the
    model returns [None] there. *)
Fixpoint scan_max (best : ResultRow) (l : DataFrame) : ResultRow :=
  match l with
  | [] => best
  | r :: l' =>
      scan_max (if Rlt_dec (Score best) (Score r) then r else best) l'
  end.

Definition best_clone (df : DataFrame) : option string :=
  match df with
  | [] => None
  | r :: l => Some (Clone_ID (scan_max r l))
  end.

(** ** What the timepoint steps write *)

(** The generator after [k] more draws. *)
Definition advance (k : nat) (g : random.state) : random.state :=
  {| random.entropy := random.entropy g;
     random.cursor := k + random.cursor g |}.

(** The log record of the seeding of a clone. *)
Definition seed_entry (c : CellLineClone) : LogEntry :=
  seeded 0 (id c) 200 (day0_density c).

(** The clone after the Day-3 step, and the log record of its feeding. *)
Definition feed_clone (c : CellLineClone) : CellLineClone :=
  set_day3_density c (fst (grow_spec c 3)).

Definition feed_entry (c : CellLineClone) : LogEntry :=
  fed_and_sampled 3 (id c) 50 50 (fst (grow_spec c 3)) (snd (grow_spec c 3)).

(** The population after a harvest that starts at the draw of rank [k] of
    the sequence [e]: each clone in turn takes the next draw [z] and is
    harvested with the noise value [1.0 + z * 0.1]. *)
Fixpoint harvest_all (e : nat -> R) (k : nat) (cs : list CellLineClone)
  : list CellLineClone :=
  match cs with
  | [] => []
  | c :: cs' => harvest_clone c (1.0 + e k * 0.1) :: harvest_all e (S k) cs'
  end.

(** The attributes of a clone that are fixed at creation. *)
Definition intrinsic (c : CellLineClone)
  : string * string * (R * R * R) * (bool * glycosylation) * (R * R) :=
  (id c, parent c,
   (base_titer c, growth_rate c, viability c),
   (stability c, glycosylation_pattern c),
   (aggregation_level c, day0_density c)).

(** The attributes of a campaign that no step assigns. *)
Definition configuration (a : AutomatedScreening) : Z * string * Z :=
  (num_clones a, plate_format a, start_date a).

(** A step other than the harvest. *)
Definition before_harvest (st : stage) : bool :=
  match st with
  | Harvest => false
  | _ => true
  end.

(** The ranges of the columns of a harvest table. *)
Definition row_in_range (r : ResultRow) : Prop :=
  0.1 <= Titer r /\
  60 <= Viability r <= 95.5 /\
  0.5 <= VCD r <= 8 /\
  0.015 <= Growth_Rate r <= 0.05 /\
  0.5 <= Aggregates r <= 8 /\
  -0.1 <= Score r <= 1.1 /\
  (Stable r = "Yes"%string \/ Stable r = "No"%string).

(** ** Sample data *)

(** A generator whose raw draws are all zero: every normal variate is the
    mean, every choice the first element, every uniform draw the lower
    end. *)
Definition zero_entropy : random.state :=
  {| random.entropy := fun _ => 0; random.cursor := 0 |}.

(** The same generator after the eighteen draws of three constructions. *)
Definition zero_entropy_18 : random.state :=
  {| random.entropy := fun _ => 0; random.cursor := 18 |}.

(** The clone [CellLineClone(name)] built from [zero_entropy]. *)
Definition clone_named (name : string) : CellLineClone :=
  {| id := name; parent := "CHO-K1";
     base_titer := 2.5; growth_rate := 0.032; viability := 94;
     stability := true; glycosylation_pattern := Optimal;
     aggregation_level := 0.5; day0_density := 0.5e6;
     day3_density := None; day7_density := None;
     day7_viability := None; day7_titer := None |}.

Definition clone_001 : CellLineClone := clone_named "Clone_001".

(** The same clone after a harvest whose noise draw was the mean. *)
Definition harvested_named (name : string) : CellLineClone :=
  harvest_clone (clone_named name) (1.0 + 0 * 0.1).

(** A clone with the best harvest the score can reward. *)
Definition clone_best : CellLineClone :=
  {| id := "Clone_002"; parent := "CHO-K1";
     base_titer := 6.0; growth_rate := 0.045; viability := 99;
     stability := true; glycosylation_pattern := Optimal;
     aggregation_level := 5.0; day0_density := 0.5e6;
     day3_density := None; day7_density := Some 8e6;
     day7_viability := Some 100; day7_titer := Some 5.0 |}.

(** A clone whose recorded titer is negative. *)
Definition clone_worst : CellLineClone :=
  {| id := "Clone_003"; parent := "CHO-K1";
     base_titer := 0.1; growth_rate := 0; viability := 60;
     stability := false; glycosylation_pattern := Poor;
     aggregation_level := 8.0; day0_density := 0.5e6;
     day3_density := None; day7_density := None;
     day7_viability := None; day7_titer := Some (-5) |}.

Definition campaign_001 : AutomatedScreening :=
  {| num_clones := 1; plate_format := "96-well"; clones := [clone_001];
     screening_log := []; start_date := 0 |}.

Definition campaign_003 : AutomatedScreening :=
  {| num_clones := 3; plate_format := "96-well";
     clones := [clone_named "Clone_001"; clone_named "Clone_002";
                clone_named "Clone_003"];
     screening_log := []; start_date := 0 |}.

Definition row (name : string) (s : R) : ResultRow :=
  {| Clone_ID := name; Titer := 2.5; Viability := 90.5; VCD := 8;
     Growth_Rate := 0.032; Stable := "Yes"; Glycosylation := Optimal;
     Aggregates := 0.5; Score := s |}.

Definition table_3 : DataFrame :=
  [row "Clone_001" 0.5; row "Clone_002" 0.9; row "Clone_003" 0.5].

(** Case analysis on the comparisons of real numbers in the goal. *)
Ltac case_R :=
  repeat match goal with
  | |- context [Rle_dec ?a ?b] => destruct (Rle_dec a b)
  | |- context [Rlt_dec ?a ?b] => destruct (Rlt_dec a b)
  | |- context [Rgt_dec ?a ?b] => destruct (Rgt_dec a b)
  | |- context [Req_dec_T ?a ?b] => destruct (Req_dec_T a b)
  end.

(** ** Rounding *)

Lemma round_half_even_IZR (k : Z) : round_half_even (IZR k) = k.
Proof.
  unfold round_half_even.
  assert (E : Zfloor (IZR k) = k) by (apply Zfloor_eq; lra).
  rewrite E.
  destruct (Rlt_dec (IZR k - IZR k) (1 / 2)); [reflexivity | lra].
Qed.

Lemma round_half_even_lower (k : Z) (x : R) :
  IZR k <= x -> (k <= round_half_even x)%Z.
Proof.
  intros H. unfold round_half_even.
  pose proof (Zfloor_lub k x H) as Hf.
  destruct (Rlt_dec _ _); [lia|].
  destruct (Rlt_dec _ _); [lia|].
  destruct (Z.even _); lia.
Qed.

Lemma round_half_even_upper (k : Z) (x : R) :
  x <= IZR k -> (round_half_even x <= k)%Z.
Proof.
  intros H. unfold round_half_even.
  pose proof (Zfloor_bound x) as [Hlo Hhi].
  assert (Hf : (Zfloor x <= k)%Z).
  { apply le_IZR. lra. }
  destruct (Rlt_dec _ _) as [Hd|Hd]; [lia|].
  assert (Hne : Zfloor x <> k).
  { intros E. rewrite E in Hd. lra. }
  destruct (Rlt_dec _ _); [lia|].
  destruct (Z.even _); lia.
Qed.

Lemma pow10_pos (n : nat) : 0 < 10 ^ n.
Proof. apply pow_lt. lra. Qed.

(** Rounding keeps a value between two bounds that are themselves
    multiples of the rounding unit. *)
Lemma round_between (lo hi : Z) (x : R) (n : nat) :
  IZR lo / 10 ^ n <= x <= IZR hi / 10 ^ n ->
  IZR lo / 10 ^ n <= round x n <= IZR hi / 10 ^ n.
Proof.
  intros [Hlo Hhi]. unfold round.
  pose proof (pow10_pos n) as Hp.
  assert (H1 : IZR lo <= x * 10 ^ n).
  { apply (Rmult_le_compat_r (10 ^ n)) in Hlo; [|lra].
    unfold Rdiv in Hlo. rewrite Rmult_assoc, Rinv_l in Hlo; lra. }
  assert (H2 : x * 10 ^ n <= IZR hi).
  { apply (Rmult_le_compat_r (10 ^ n)) in Hhi; [|lra].
    unfold Rdiv in Hhi. rewrite Rmult_assoc, Rinv_l in Hhi; lra. }
  apply round_half_even_lower in H1. apply round_half_even_upper in H2.
  apply IZR_le in H1. apply IZR_le in H2.
  split; apply Rmult_le_compat_r; try lra;
    apply Rlt_le, Rinv_0_lt_compat; exact Hp.
Qed.

Lemma round_exact (k : Z) (x : R) (n : nat) :
  x * 10 ^ n = IZR k -> round x n = IZR k / 10 ^ n.
Proof.
  intros E. unfold round. rewrite E, round_half_even_IZR. reflexivity.
Qed.

(** ** The clone model *)

Lemma grow_pure (c : CellLineClone) (g : random.state) (days : R) :
  grow days (c, g) = (grow_spec c days, (c, g)).
Proof.
  unfold grow, grow_spec, bind, self, ret. simpl.
  rewrite <- Rmult_assoc. reflexivity.
Qed.

Lemma produce_antibody_eq (c : CellLineClone) (g : random.state) (days : R) :
  produce_antibody days (c, g) =
  (Rmax 0.1 (raw_titer c days * fst (random.gauss 1.0 0.1 g)),
   (c, snd (random.gauss 1.0 0.1 g))).
Proof.
  unfold produce_antibody, bind. rewrite grow_pure.
  unfold raw_titer, self, draw, ret. simpl. reflexivity.
Qed.

Lemma Rmin_one_zero : Rmin 1.0 (0 / 5.0) = 0.
Proof. unfold Rmin. case_R; lra. Qed.

Lemma score_pure (c : CellLineClone) (g : random.state) :
  score (c, g) = (score_spec c, (c, g)).
Proof.
  unfold score, score_spec, bind, self, ret, aggregation_penalty. simpl.
  f_equal. f_equal.
  assert (Et : (if truthy (day7_titer c)
                then Rmin 1.0 (the (day7_titer c) / 5.0) else 0) =
               match day7_titer c with
               | Some x => Rmin 1.0 (x / 5.0)
               | None => 0
               end).
  { destruct (day7_titer c) as [t|]; simpl; [|reflexivity].
    destruct (Req_dec_T t 0) as [->|]; [|reflexivity].
    symmetry. exact Rmin_one_zero. }
  assert (Ev : (if truthy (day7_viability c)
                then the (day7_viability c) / 100 else 0) =
               match day7_viability c with
               | Some x => x / 100
               | None => 0
               end).
  { destruct (day7_viability c) as [v|]; simpl; [|reflexivity].
    destruct (Req_dec_T v 0) as [->|]; [lra|reflexivity]. }
  rewrite Et, Ev.
  assert (Eq : (if glycosylation_eqb (glycosylation_pattern c) Optimal
                then 0.15 else 0) =
               match glycosylation_pattern c with
               | Optimal => 0.15
               | _ => 0
               end).
  { destruct (glycosylation_pattern c); reflexivity. }
  rewrite Eq.
  assert (Ep : (if Rgt_dec (aggregation_level c) 5.0 then -0.1 else 0) =
               (if Rlt_dec 5.0 (aggregation_level c) then -0.10 else 0)).
  { unfold Rgt. case_R; lra. }
  rewrite Ep.
  destruct (stability c); f_equal; lra.
Qed.

Lemma round_near (k : Z) (x : R) (n : nat) :
  IZR k - 1 / 2 < x * 10 ^ n < IZR k + 1 / 2 ->
  round x n = IZR k / 10 ^ n.
Proof.
  intros [Hlo Hhi]. unfold round. f_equal. f_equal.
  unfold round_half_even.
  set (y := x * 10 ^ n) in *.
  pose proof (Zfloor_bound y) as [Flo Fhi].
  assert (Hk : (Zfloor y = k \/ Zfloor y = k - 1)%Z).
  { assert (H1 : (Zfloor y < k + 1)%Z) by (apply lt_IZR; rewrite plus_IZR; lra).
    assert (H2 : (k - 1 < Zfloor y + 1)%Z).
    { apply lt_IZR. rewrite plus_IZR, minus_IZR. lra. }
    lia. }
  destruct Hk as [E|E]; rewrite E in *.
  - destruct (Rlt_dec (y - IZR k) (1 / 2)); [reflexivity | lra].
  - rewrite minus_IZR in *.
    destruct (Rlt_dec (y - (IZR k - 1)) (1 / 2)); [lra|].
    destruct (Rlt_dec (1 / 2) (y - (IZR k - 1))); [lia | lra].
Qed.

Lemma exp_le (x y : R) : x <= y -> exp x <= exp y.
Proof.
  intros [H| ->]; [left; apply exp_increasing; exact H | right; reflexivity].
Qed.

Lemma gauss_any (mu x : R) :
  exists g, fst (random.gauss mu 0.1 g) = x.
Proof.
  exists {| random.entropy := fun _ => (x - mu) * 10; random.cursor := 0 |}.
  unfold random.gauss, random.next, bind, ret. simpl. lra.
Qed.

(** C1.  [score()] returns the weighted sum of the specification, rounded
    to three decimals: absent Day-7 observations contribute zero, an
    aggregation level of exactly 5.0 carries no penalty, and the total is
    not clamped (a clone can score above 1, another below 0).  Scoring
    neither mutates the clone nor draws from the generator. *)
Theorem score_is_weighted_sum :
  forall (c : CellLineClone) (g : random.state),
    score (c, g) = (score_spec c, (c, g)) /\
    aggregation_penalty 5.0 = 0 /\
    fst (score (clone_001, g)) = 0.421 /\
    fst (score (clone_best, g)) = 1.1 /\
    fst (score (clone_worst, g)) = -0.5.
Proof.
  intros c g. split; [apply score_pure|].
  split; [unfold aggregation_penalty; case_R; lra|].
  rewrite !score_pure. simpl fst.
  unfold score_spec, aggregation_penalty. simpl.
  repeat split.
  - replace 0.421 with (IZR 421 / 10 ^ 3) by lra.
    apply round_near. unfold Rmin. case_R; lra.
  - replace 1.1 with (IZR 1100 / 10 ^ 3) by lra.
    apply round_exact. unfold Rmin. case_R; lra.
  - replace (-0.5) with (IZR (-500) / 10 ^ 3) by lra.
    apply round_exact. unfold Rmin. case_R; lra.
Qed.

(** C2.  [grow(days)] returns the capped exponential density and the
    floored linear viability of the specification, as a function of the
    clone and of [days] alone: the clone and the generator come back as
    they went in. *)
Theorem grow_is_deterministic_formula :
  forall (c : CellLineClone) (g : random.state) (days : R),
    grow days (c, g) =
    ((Rmin (day0_density c * exp (growth_rate c * days * 24)) 8e6,
      Rmax 60 (viability c - days * 0.5)),
     (c, g)).
Proof.
  intros c g days. rewrite grow_pure. reflexivity.
Qed.

(** C3.  [produce_antibody(days)] is the raw titer, computed with the
    viability that [grow] returns, times the noise draw, floored at 0.1;
    whatever the draw (and every real number is a possible draw) the
    result is at least 0.1, hence positive. *)
Theorem produce_antibody_floored :
  forall (c : CellLineClone) (g : random.state) (days : R),
    let noise := fst (random.gauss 1.0 0.1 g) in
    let viability' := snd (fst (grow days (c, g))) in
    fst (produce_antibody days (c, g)) =
      Rmax 0.1 ((base_titer c * days / 7) * (viability' / 100) * noise) /\
    0.1 <= fst (produce_antibody days (c, g)) /\
    0 < fst (produce_antibody days (c, g)) /\
    (forall x : R, exists g' : random.state,
        fst (random.gauss 1.0 0.1 g') = x /\
        fst (produce_antibody days (c, g')) = Rmax 0.1 (raw_titer c days * x)).
Proof.
  intros c g days noise viability'.
  subst noise viability'. rewrite grow_pure, produce_antibody_eq.
  cbv beta iota delta [fst snd grow_spec].
  fold (grow_spec c days). fold (raw_titer c days).
  split; [reflexivity|].
  split; [apply Rmax_l|].
  split; [apply Rlt_le_trans with (r2 := 0.1); [lra | apply Rmax_l]|].
  intros x. destruct (gauss_any 1.0 x) as [g' Hg'].
  exists g'. split; [exact Hg'|].
  rewrite produce_antibody_eq.
  cbv beta iota delta [fst]. fold (fst (random.gauss 1.0 0.1 g')).
  rewrite Hg'. reflexivity.
Qed.

(** Growth of a clone that satisfies the invariant. *)
Lemma grow_monotone_of_ok (c : CellLineClone) (g : random.state) (d1 d2 : R) :
  clone_ok c ->
  d1 <= d2 ->
  fst (fst (grow d1 (c, g))) <= fst (fst (grow d2 (c, g))) /\
  fst (fst (grow d1 (c, g))) <= 8e6 /\
  fst (fst (grow d2 (c, g))) <= 8e6 /\
  snd (fst (grow d2 (c, g))) <= snd (fst (grow d1 (c, g))) /\
  60 <= snd (fst (grow d1 (c, g))) /\
  60 <= snd (fst (grow d2 (c, g))).
Proof.
  intros Hok Hd. rewrite !grow_pure. unfold grow_spec. simpl.
  destruct Hok as [_ [Hg _] _ _ H0 _ _].
  repeat split.
  - apply Rle_min_compat_r. rewrite H0.
    apply Rmult_le_compat_l; [lra|]. apply exp_le. nra.
  - apply Rmin_r.
  - apply Rmin_r.
  - apply Rle_max_compat_l. lra.
  - apply Rmax_l.
  - apply Rmax_l.
Qed.

Lemma Rmin_one_bounds (x : R) : 0 <= x -> 0 <= Rmin 1.0 x <= 1.
Proof. intros H. unfold Rmin. case_R; lra. Qed.

(** The score of a clone that satisfies the invariant. *)
Lemma score_bounded_of_ok (c : CellLineClone) (g : random.state) :
  clone_ok c ->
  -0.1 <= fst (score (c, g)) <= 1.1.
Proof.
  intros [_ [Hg _] _ _ _ Ht Hv]. rewrite score_pure.
  cbv beta iota delta [fst score_spec].
  replace (-0.1) with (IZR (-100) / 10 ^ 3) by lra.
  replace 1.1 with (IZR 1100 / 10 ^ 3) by lra.
  apply round_between.
  assert (Bt : 0 <= match day7_titer c with
                    | Some x => Rmin 1.0 (x / 5.0)
                    | None => 0
                    end <= 1).
  { destruct (day7_titer c) as [t|]; simpl in Ht; [|lra].
    apply Rmin_one_bounds. lra. }
  assert (Bv : 0 <= match day7_viability c with
                    | Some x => x / 100
                    | None => 0
                    end <= 0.99).
  { destruct (day7_viability c) as [v|]; simpl in Hv; lra. }
  assert (Bg : 0 <= Rmin 1.0 (growth_rate c / 0.045) <= 1).
  { apply Rmin_one_bounds. lra. }
  assert (Bs : 0 <= (if stability c then 0.20 else 0) <= 0.20).
  { destruct (stability c); lra. }
  assert (Bq : 0 <= match glycosylation_pattern c with
                    | Optimal => 0.15
                    | _ => 0
                    end <= 0.15).
  { destruct (glycosylation_pattern c); lra. }
  assert (Bp : -0.10 <= aggregation_penalty (aggregation_level c) <= 0).
  { unfold aggregation_penalty. case_R; lra. }
  lra.
Qed.

(** ** The generator *)

Lemma frac_part_bounds (x : R) : 0 <= frac_part x < 1.
Proof. destruct (base_fp x) as [H1 H2]. lra. Qed.

Lemma clamp_bounds (lo hi x : R) :
  lo <= hi -> lo <= Rmax lo (Rmin hi x) <= hi.
Proof.
  intros H. split; [apply Rmax_l|].
  apply Rmax_lub; [exact H | apply Rmin_l].
Qed.

(** What [CellLineClone.__init__] returns. *)
Lemma CellLineClone_init_spec (clone_id parent_line : string)
  (g : random.state) :
  let c := fst (CellLineClone_init clone_id parent_line g) in
  id c = clone_id /\ parent c = parent_line /\
  clone_ok c /\ unobserved c /\ aggregation_level c < 8.0.
Proof.
  unfold CellLineClone_init, random.gauss, random.choice, random.uniform,
    random.random, random.next, bind, ret.
  cbv beta iota delta [fst snd].
  split; [reflexivity|]. split; [reflexivity|].
  split; [|split].
  - constructor; cbv beta iota delta
      [base_titer growth_rate viability aggregation_level day0_density
       day7_titer day7_viability opt_all];
      try (apply clamp_bounds; lra); try exact I; try reflexivity.
    match goal with
    | |- context [frac_part ?x] => pose proof (frac_part_bounds x)
    end.
    lra.
  - repeat split.
  - cbv beta iota delta [aggregation_level].
    match goal with
    | |- context [frac_part ?x] => pose proof (frac_part_bounds x)
    end.
    lra.
Qed.

Lemma for_each_length {S A B : Type} (body : A -> State S B) (l : list A)
  (s : S) : List.length (fst (for_each body l s)) = List.length l.
Proof.
  revert s. induction l as [|a l IH]; intros s; [reflexivity|].
  simpl. unfold bind. destruct (body a s) as [b s1].
  specialize (IH s1). destruct (for_each body l s1) as [bs s2].
  simpl in *. f_equal. exact IH.
Qed.

Lemma for_each_Forall {S A B : Type} (body : A -> State S B)
  (P : B -> Prop) (l : list A) (s : S) :
  (forall a s0, P (fst (body a s0))) ->
  Forall P (fst (for_each body l s)).
Proof.
  intros H. revert s. induction l as [|a l IH]; intros s; [constructor|].
  simpl. unfold bind. specialize (H a s). destruct (body a s) as [b s1].
  specialize (IH s1). destruct (for_each body l s1) as [bs s2].
  simpl in *. constructor; assumption.
Qed.

Lemma for_each_map {S A B C : Type} (body : A -> State S B)
  (f : B -> C) (h : A -> C) (l : list A) (s : S) :
  (forall a s0, f (fst (body a s0)) = h a) ->
  map f (fst (for_each body l s)) = map h l.
Proof.
  intros H. revert s. induction l as [|a l IH]; intros s; [reflexivity|].
  simpl. unfold bind. specialize (H a s). destruct (body a s) as [b s1].
  specialize (IH s1). destruct (for_each body l s1) as [bs s2].
  simpl in *. f_equal; assumption.
Qed.

Lemma for_each_Forall2 {S A B : Type} (body : A -> State S B)
  (Q : A -> B -> Prop) (l : list A) (s : S) :
  (forall a s0, Q a (fst (body a s0))) ->
  Forall2 Q l (fst (for_each body l s)).
Proof.
  intros H. revert s. induction l as [|a l IH]; intros s; [constructor|].
  simpl. unfold bind. specialize (H a s). destruct (body a s) as [b s1].
  specialize (IH s1). destruct (for_each body l s1) as [bs s2].
  simpl in *. constructor; assumption.
Qed.

(** *** Identifiers *)

Lemma zero_pad_value (k : nat) (d : uint) :
  Nat.of_uint (zero_pad k d) = Nat.of_uint d.
Proof. induction k as [|k IH]; [reflexivity | exact IH]. Qed.

Lemma zero_pad_digits (k : nat) (d : uint) :
  Decimal.nb_digits (zero_pad k d) = (k + Decimal.nb_digits d)%nat.
Proof. induction k as [|k IH]; simpl; [reflexivity | now rewrite IH]. Qed.

Lemma string_of_uint_length (d : uint) :
  String.length (NilEmpty.string_of_uint d) = Decimal.nb_digits d.
Proof. induction d; simpl; congruence. Qed.

Lemma format_03d_value (n : nat) :
  option_map Nat.of_uint (NilEmpty.uint_of_string (format_03d n)) = Some n.
Proof.
  unfold format_03d. rewrite NilEmpty.usu. simpl.
  rewrite zero_pad_value, DecimalNat.Unsigned.of_to. reflexivity.
Qed.

Lemma format_03d_length (n : nat) :
  String.length (format_03d n) = Nat.max 3 (Decimal.nb_digits (Nat.to_uint n)).
Proof.
  unfold format_03d. rewrite string_of_uint_length, zero_pad_digits. lia.
Qed.

Lemma format_03d_inj (a b : nat) : format_03d a = format_03d b -> a = b.
Proof.
  intros H. pose proof (format_03d_value a) as Ha.
  rewrite H, format_03d_value in Ha. congruence.
Qed.

Lemma clone_id_inj :
  Injective (fun i : nat => ("Clone_" ++ format_03d (i + 1))%string).
Proof.
  intros a b H. simpl in H. inversion H as [H'].
  apply format_03d_inj in H'. lia.
Qed.

Lemma clone_id_form (i : nat) :
  is_clone_id (i + 1) ("Clone_" ++ format_03d (i + 1)).
Proof.
  exists (format_03d (i + 1)).
  split; [reflexivity|]. split; [apply format_03d_length | apply format_03d_value].
Qed.

Example format_03d_examples :
  format_03d 1 = "001"%string /\ format_03d 96 = "096"%string /\
  format_03d 999 = "999"%string /\ format_03d 1000 = "1000"%string.
Proof. repeat split. Qed.

(** *** The population *)

Lemma AutomatedScreening_init_eq (n : Z) (pf : string) (now : Z)
  (g : random.state) :
  let body := fun i : nat =>
    CellLineClone_init ("Clone_" ++ format_03d (i + 1)) "CHO-K1" in
  AutomatedScreening_init n pf now g =
  (Ok {| num_clones := n; plate_format := pf;
         clones := fst (for_each body (range n) g);
         screening_log := []; start_date := now |},
   snd (for_each body (range n) g)).
Proof.
  intros body. unfold AutomatedScreening_init, bind, ret. fold body.
  destruct (for_each body (range n) g) as [cs g']. reflexivity.
Qed.

(** C5 (as the code behaves).  The constructor never raises: for every
    integer [num_clones] it returns a campaign that stores the number as
    given, with [max 0 num_clones] clones (none when the number is not
    positive) and an empty log. *)
Theorem init_never_raises :
  forall (n : Z) (pf : string) (now : Z) (g : random.state),
  exists (this : AutomatedScreening) (g' : random.state),
    AutomatedScreening_init n pf now g = (Ok this, g') /\
    num_clones this = n /\
    List.length (clones this) = Z.to_nat n /\
    Z.of_nat (List.length (clones this)) = Z.max 0 n /\
    screening_log this = [].
Proof.
  intros n pf now g. rewrite AutomatedScreening_init_eq.
  eexists. eexists. split; [reflexivity|]. simpl.
  rewrite for_each_length. unfold range. rewrite length_seq.
  repeat split; lia.
Qed.

(** C5, refuted as stated: with [num_clones = 0] the constructor returns a
    campaign without clones instead of raising. *)
Lemma init_zero_returns :
  AutomatedScreening_init 0 "96-well" 0 zero_entropy =
    (Ok {| num_clones := 0; plate_format := "96-well"; clones := [];
           screening_log := []; start_date := 0 |}, zero_entropy) /\
  ~ (forall (n : Z) (pf : string) (now : Z) (g : random.state),
        (n <= 0)%Z ->
        exists e, fst (AutomatedScreening_init n pf now g) = Raise e).
Proof.
  split; [reflexivity|].
  intros H. destruct (H 0%Z "96-well"%string 0%Z zero_entropy) as [e He]; [lia|].
  discriminate He.
Qed.

(** C9.  For a positive [num_clones] the constructor returns exactly that
    many clones, in creation order, the clone of rank [k] (from 1) being
    named [Clone_] and [k] in decimal, zero-padded to three digits; the
    names are pairwise distinct, the intrinsic parameters lie in their
    clamp intervals, the seeding density is 0.5e6 and nothing has been
    observed yet. *)
Theorem generator_population :
  forall (n : Z) (pf : string) (now : Z) (g : random.state),
    (0 < n)%Z ->
    exists (this : AutomatedScreening) (g' : random.state),
      AutomatedScreening_init n pf now g = (Ok this, g') /\
      Z.of_nat (List.length (clones this)) = n /\
      map id (clones this) =
        map (fun i => ("Clone_" ++ format_03d (i + 1))%string)
            (seq 0 (Z.to_nat n)) /\
      Forall2 (fun i c => is_clone_id (i + 1) (id c))
              (seq 0 (Z.to_nat n)) (clones this) /\
      NoDup (map id (clones this)) /\
      Forall as_generated (clones this).
Proof.
  intros n pf now g Hn. rewrite AutomatedScreening_init_eq.
  eexists. eexists. split; [reflexivity|].
  cbv beta iota delta [clones].
  set (body := fun i : nat =>
    CellLineClone_init ("Clone_" ++ format_03d (i + 1)) "CHO-K1").
  assert (Eid : map id (fst (for_each body (range n) g)) =
                map (fun i => ("Clone_" ++ format_03d (i + 1))%string)
                    (seq 0 (Z.to_nat n))).
  { apply for_each_map. intros a s0.
    apply (CellLineClone_init_spec
             ("Clone_" ++ format_03d (a + 1)) "CHO-K1" s0). }
  split; [rewrite for_each_length; unfold range; rewrite length_seq; lia|].
  split; [exact Eid|].
  split; [|split].
  - apply for_each_Forall2. intros a s0.
    destruct (CellLineClone_init_spec
                ("Clone_" ++ format_03d (a + 1)) "CHO-K1" s0) as [E _].
    unfold body. cbv beta. rewrite E. apply clone_id_form.
  - rewrite Eid. apply Injective_map_NoDup;
      [exact clone_id_inj | apply seq_NoDup].
  - apply for_each_Forall. intros a s0.
    destruct (CellLineClone_init_spec
                ("Clone_" ++ format_03d (a + 1)) "CHO-K1" s0)
      as (_ & _ & [Hb Hg Hv Ha H0 _ _] & (U1 & U2 & U3 & U4) & _).
    unfold body, as_generated. repeat split; solve [assumption | lra].
Qed.

Lemma generator_population_witness :
  (0 < 3)%Z /\
  exists (this : AutomatedScreening) (g' : random.state),
    AutomatedScreening_init 3 "96-well" 0 zero_entropy = (Ok this, g') /\
    Z.of_nat (List.length (clones this)) = 3%Z /\
    map id (clones this) = ["Clone_001"; "Clone_002"; "Clone_003"]%string /\
    NoDup (map id (clones this)) /\
    Forall as_generated (clones this).
Proof.
  assert (H3 : (0 < 3)%Z) by lia.
  split; [exact H3|].
  destruct (generator_population 3 "96-well" 0 zero_entropy H3)
    as (this & g' & E & Hlen & Hid & _ & Hnd & Hall).
  exists this, g'. repeat split; assumption.
Defined.

(** ** The campaign steps *)

Lemma for_each_Forall_impl {S A B : Type} (body : A -> State S B)
  (P : A -> Prop) (Q : B -> Prop) (l : list A) (s : S) :
  (forall a s0, P a -> Q (fst (body a s0))) ->
  Forall P l ->
  Forall Q (fst (for_each body l s)).
Proof.
  intros H HP. revert s. induction HP as [|a l Ha _ IH]; intros s;
    [constructor|].
  simpl. unfold bind. specialize (H a s Ha). destruct (body a s) as [b s1].
  specialize (IH s1). destruct (for_each body l s1) as [bs s2].
  simpl in *. constructor; assumption.
Qed.

Lemma for_each_cons {S A B : Type} (body : A -> State S B) (a : A)
  (l : list A) (s : S) :
  for_each body (a :: l) s =
  (fst (body a s) :: fst (for_each body l (snd (body a s))),
   snd (for_each body l (snd (body a s)))).
Proof.
  simpl. unfold bind, ret. destruct (body a s) as [b s1]. cbn [fst snd].
  destruct (for_each body l s1) as [bs s2]. reflexivity.
Qed.

Lemma day_3_body_eq (c : CellLineClone) (log : list LogEntry)
  (g : random.state) :
  day_3_body c (log, g) =
  (set_day3_density c (fst (grow_spec c 3)),
   (log ++ [fed_and_sampled 3 (id c) 50 50
              (fst (grow_spec c 3)) (snd (grow_spec c 3))], g)).
Proof. unfold day_3_body. rewrite grow_pure. reflexivity. Qed.

Lemma day_7_body_eq (c : CellLineClone) (results : DataFrame)
  (g : random.state) :
  day_7_body c (results, g) =
  (harvest_clone c (fst (random.gauss 1.0 0.1 g)),
   (results ++ [harvest_row (harvest_clone c (fst (random.gauss 1.0 0.1 g)))],
    snd (random.gauss 1.0 0.1 g))).
Proof.
  unfold day_7_body. rewrite grow_pure, produce_antibody_eq.
  unfold grow_spec at 1. cbv beta iota zeta.
  rewrite score_pure. reflexivity.
Qed.

Lemma harvest_clone_ok (c : CellLineClone) (noise : R) :
  clone_ok c -> clone_ok (harvest_clone c noise).
Proof.
  intros [Hb Hg Hv Ha H0 _ _].
  constructor; try assumption; unfold harvest_clone, grow_spec; simpl.
  - apply Rmax_l.
  - split; [apply Rmax_l|]. apply Rmax_lub; lra.
Qed.

Lemma set_day3_density_ok (c : CellLineClone) (v : R) :
  clone_ok c -> clone_ok (set_day3_density c v).
Proof. intros [Hb Hg Hv Ha H0 Ht Hw]. constructor; assumption. Qed.

Lemma harvest_clone_harvested (c : CellLineClone) (noise : R) :
  harvested (harvest_clone c noise).
Proof. repeat split; discriminate. Qed.

(** The harvest loop, clone by clone. *)
Lemma harvest_loop (cs : list CellLineClone) (results : DataFrame)
  (g : random.state) :
  let r := for_each day_7_body cs (results, g) in
  List.length (fst r) = List.length cs /\
  Forall harvested (fst r) /\
  map id (fst r) = map id cs /\
  map day3_density (fst r) = map day3_density cs /\
  (Forall clone_ok cs -> Forall clone_ok (fst r)) /\
  exists rows, fst (snd r) = results ++ rows /\
               map Clone_ID rows = map id cs /\
               map Score rows = map score_spec (fst r).
Proof.
  revert results g. induction cs as [|c cs IH]; intros results g.
  - simpl. split; [|split; [|split; [|split; [|split]]]];
      try reflexivity; try constructor.
    exists []. rewrite app_nil_r. repeat split.
  - rewrite for_each_cons, day_7_body_eq. cbn [fst snd].
    set (c' := harvest_clone c _). set (g' := snd (random.gauss _ _ g)).
    destruct (IH (results ++ [harvest_row c']) g')
      as (Hl & Hh & Hi & H3 & Hok & rows & Hr & Hid & Hsc).
    split; [|split; [|split; [|split; [|split]]]].
    + simpl. f_equal. exact Hl.
    + constructor; [apply harvest_clone_harvested | exact Hh].
    + simpl. f_equal. exact Hi.
    + simpl. f_equal. exact H3.
    + intros H. inversion H as [|? ? Hc Hcs]; subst.
      constructor; [apply harvest_clone_ok; exact Hc | apply Hok; exact Hcs].
    + exists (harvest_row c' :: rows). rewrite Hr, <- app_assoc.
      repeat split; simpl; f_equal; assumption.
Qed.

(** The harvest on a non-empty population. *)
Lemma day_7_harvest_returns (this : AutomatedScreening) (g : random.state) :
  clones this <> [] ->
  exists (df : DataFrame) (this' : AutomatedScreening) (g' : random.state),
    day_7_harvest_and_analyze (this, g) = (Ok df, (this', g')) /\
    map Clone_ID df = map id (clones this) /\
    map Score df = map score_spec (clones this') /\
    map id (clones this') = map id (clones this) /\
    Forall harvested (clones this') /\
    map day3_density (clones this') = map day3_density (clones this) /\
    (Forall clone_ok (clones this) -> Forall clone_ok (clones this')) /\
    screening_log this' = screening_log this.
Proof.
  intros Hne. unfold day_7_harvest_and_analyze.
  pose proof (harvest_loop (clones this) [] g) as H. cbv zeta in H.
  destruct (for_each day_7_body (clones this) ([], g)) as [cs' [results g']].
  cbn [fst snd] in H.
  destruct H as (Hl & Hh & Hi & H3 & Hok & rows & Hr & Hid & Hsc).
  simpl in Hr. subst results.
  destruct rows as [|r rows].
  - exfalso. apply Hne. destruct (clones this); [reflexivity | discriminate Hid].
  - eexists. eexists. eexists. split; [reflexivity|].
    cbn [clones screening_log with_clones_log]. repeat split; assumption.
Qed.

(** C7 (as the code behaves).  No step looks at the campaign's stage:
    on any campaign with at least one clone, whatever was or was not run
    before, the harvest returns one row per clone in creation order and
    records the Day-7 observations on every clone, leaving the Day-3
    densities and the log as they were. *)
Theorem harvest_has_no_stage_guard :
  forall (this : AutomatedScreening) (g : random.state),
    clones this <> [] ->
    exists (df : DataFrame) (this' : AutomatedScreening) (g' : random.state),
      day_7_harvest_and_analyze (this, g) = (Ok df, (this', g')) /\
      map Clone_ID df = map id (clones this) /\
      map id (clones this') = map id (clones this) /\
      Forall harvested (clones this') /\
      map day3_density (clones this') = map day3_density (clones this) /\
      screening_log this' = screening_log this.
Proof.
  intros this g Hne.
  destruct (day_7_harvest_returns this g Hne)
    as (df & this' & g' & E & Hid & _ & Hi & Hh & H3 & _ & Hlog).
  exists df, this', g'. repeat split; assumption.
Qed.

Lemma harvest_has_no_stage_guard_witness :
  clones campaign_001 <> [] /\
  exists (df : DataFrame) (this' : AutomatedScreening) (g' : random.state),
    day_7_harvest_and_analyze (campaign_001, zero_entropy) =
      (Ok df, (this', g')) /\
    Forall harvested (clones this') /\
    map day3_density (clones this') = [None].
Proof.
  assert (Hne : clones campaign_001 <> []) by discriminate.
  split; [exact Hne|].
  destruct (harvest_has_no_stage_guard campaign_001 zero_entropy Hne)
    as (df & this' & g' & E & _ & _ & Hh & H3 & _).
  exists df, this', g'. repeat split; assumption.
Defined.

(** C7, refuted as stated: on the campaign that the constructor has just
    built, neither seeded nor fed, the harvest returns a table and has
    written the Day-7 observations of the clone. *)
Lemma harvest_before_feed_returns :
  screening_log campaign_001 = [] /\
  Forall unobserved (clones campaign_001) /\
  exists (df : DataFrame) (this' : AutomatedScreening) (g' : random.state),
    day_7_harvest_and_analyze (campaign_001, zero_entropy) =
      (Ok df, (this', g')) /\
    List.length df = 1%nat /\
    Forall harvested (clones this') /\
    this' <> campaign_001.
Proof.
  split; [reflexivity|]. split; [repeat constructor|].
  assert (Hne : clones campaign_001 <> []) by discriminate.
  destruct (day_7_harvest_returns campaign_001 zero_entropy Hne)
    as (df & this' & g' & E & Hid & _ & _ & Hh & _).
  exists df, this', g'. split; [exact E|].
  split.
  { apply (f_equal (@List.length _)) in Hid.
    rewrite !length_map in Hid. exact Hid. }
  split; [exact Hh|].
  intros ->. inversion Hh as [|c l (_ & _ & Ht) _]; subst.
  apply Ht. reflexivity.
Qed.

(** ** Selection *)

Lemma insert_desc_perm (r : ResultRow) (l : DataFrame) :
  Permutation (insert_desc r l) (r :: l).
Proof.
  induction l as [|r' l IH]; simpl; [reflexivity|].
  destruct (Rlt_dec (Score r) (Score r')); [|reflexivity].
  rewrite IH. apply perm_swap.
Qed.

Lemma sort_desc_perm (df : DataFrame) : Permutation (sort_desc df) df.
Proof.
  induction df as [|r l IH]; simpl; [reflexivity|].
  rewrite insert_desc_perm. constructor. exact IH.
Qed.

Lemma insert_desc_sorted (r : ResultRow) (l : DataFrame) :
  StronglySorted score_ge l -> StronglySorted score_ge (insert_desc r l).
Proof.
  induction l as [|r' l IH]; intros Hs; simpl.
  - repeat constructor.
  - inversion Hs as [|? ? Hl Hall]; subst.
    destruct (Rlt_dec (Score r) (Score r')) as [Hlt|Hge].
    + constructor; [apply IH; exact Hl|].
      apply (Permutation_Forall (x := r :: l));
        [symmetry; apply insert_desc_perm|].
      constructor; [unfold score_ge; lra | exact Hall].
    + constructor; [exact Hs|].
      constructor; [unfold score_ge; lra|].
      apply (Forall_impl (P := score_ge r')); [|exact Hall].
      unfold score_ge. intros a Ha. lra.
Qed.

Lemma sort_desc_sorted (df : DataFrame) : StronglySorted score_ge (sort_desc df).
Proof.
  induction df as [|r l IH]; simpl; [constructor|].
  apply insert_desc_sorted. exact IH.
Qed.

Lemma insert_desc_filter (s : R) (r : ResultRow) (l : DataFrame) :
  filter (has_score s) (insert_desc r l) = filter (has_score s) (r :: l).
Proof.
  induction l as [|r' l IH]; [reflexivity|].
  simpl insert_desc.
  destruct (Rlt_dec (Score r) (Score r')) as [Hlt|Hge]; [|reflexivity].
  change (filter (has_score s) (r' :: insert_desc r l))
    with (if has_score s r' then r' :: filter (has_score s) (insert_desc r l)
          else filter (has_score s) (insert_desc r l)).
  rewrite IH. simpl. unfold has_score.
  destruct (Req_dec_T (Score r') s), (Req_dec_T (Score r) s);
    try reflexivity.
  lra.
Qed.

(** Rows of equal score keep the order they have in the table. *)
Lemma sort_desc_stable (s : R) (df : DataFrame) :
  filter (has_score s) (sort_desc df) = filter (has_score s) df.
Proof.
  induction df as [|r l IH]; [reflexivity|].
  simpl sort_desc. rewrite insert_desc_filter. simpl. rewrite IH. reflexivity.
Qed.

Lemma StronglySorted_app_l {A : Type} (R : A -> A -> Prop) (l1 l2 : list A) :
  StronglySorted R (l1 ++ l2) -> StronglySorted R l1.
Proof.
  induction l1 as [|a l1 IH]; intros H; [constructor|].
  simpl in H. inversion H as [|? ? Hs Hall]; subst.
  constructor; [apply IH; exact Hs|].
  apply Forall_app in Hall. apply Hall.
Qed.

(** What [select_top_clones] returns, for every table and every count. *)
Lemma select_top_clones_spec (df : DataFrame) (n : Z)
  (w : AutomatedScreening * random.state) :
  exists top rest : DataFrame,
    select_top_clones df n w = (Ok top, w) /\
    List.length top = Nat.min (Z.to_nat n) (List.length df) /\
    StronglySorted score_ge top /\
    Permutation (top ++ rest) df /\
    StronglySorted score_ge (top ++ rest) /\
    (forall s : R,
        filter (has_score s) (top ++ rest) = filter (has_score s) df).
Proof.
  exists (firstn (Z.to_nat n) (sort_desc df)),
         (skipn (Z.to_nat n) (sort_desc df)).
  split; [reflexivity|].
  split.
  { rewrite length_firstn.
    rewrite (Permutation_length (sort_desc_perm df)). reflexivity. }
  split.
  { apply (StronglySorted_app_l _ _ (skipn (Z.to_nat n) (sort_desc df))).
    rewrite firstn_skipn. apply sort_desc_sorted. }
  rewrite firstn_skipn.
  split; [apply sort_desc_perm|].
  split; [apply sort_desc_sorted|].
  intros s. apply sort_desc_stable.
Qed.

(** C4.  With [1 <= n <= m] on a table of [m] rows, the selection returns
    exactly [n] rows in non-increasing order of score; they are the head
    of a reordering of the whole table that is sorted by non-increasing
    score and keeps rows of equal score in their original order; the
    campaign and the generator are returned untouched. *)
Theorem select_top_n :
  forall (df : DataFrame) (n : Z) (this : AutomatedScreening)
         (g : random.state),
    (1 <= n <= Z.of_nat (List.length df))%Z ->
    exists top rest : DataFrame,
      select_top_clones df n (this, g) = (Ok top, (this, g)) /\
      Z.of_nat (List.length top) = n /\
      StronglySorted score_ge top /\
      Permutation (top ++ rest) df /\
      StronglySorted score_ge (top ++ rest) /\
      (forall s : R,
          filter (has_score s) (top ++ rest) = filter (has_score s) df).
Proof.
  intros df n this g Hn.
  destruct (select_top_clones_spec df n (this, g))
    as (top & rest & E & Hlen & Hs & Hp & Hsa & Hst).
  exists top, rest. repeat split; try assumption. lia.
Qed.

Lemma select_top_n_witness :
  (1 <= 2 <= Z.of_nat (List.length table_3))%Z /\
  exists top rest : DataFrame,
    select_top_clones table_3 2 (campaign_003, zero_entropy) =
      (Ok top, (campaign_003, zero_entropy)) /\
    Z.of_nat (List.length top) = 2%Z /\
    StronglySorted score_ge top /\
    Permutation (top ++ rest) table_3.
Proof.
  assert (Hn : (1 <= 2 <= Z.of_nat (List.length table_3))%Z) by (simpl; lia).
  split; [exact Hn|].
  destruct (select_top_n table_3 2 campaign_003 zero_entropy Hn)
    as (top & rest & E & Hlen & Hs & Hp & _).
  exists top, rest. repeat split; assumption.
Defined.

(** The selection on the sample table: the best row first, then the
    earlier of the two rows that tie. *)
Example nlargest_table_3 :
  nlargest 2 table_3 = [row "Clone_002" 0.9; row "Clone_001" 0.5] /\
  nlargest 0 table_3 = [] /\
  nlargest (-1) table_3 = [] /\
  nlargest 4 table_3 =
    [row "Clone_002" 0.9; row "Clone_001" 0.5; row "Clone_003" 0.5].
Proof.
  unfold nlargest, table_3, sort_desc. simpl.
  repeat (case_R; try lra; simpl).
  repeat split.
Qed.

(** C6 (as the code behaves).  The selection never raises and never
    touches the campaign: whatever [n], it returns the first
    [min (max 0 n) m] rows of the table in non-increasing order of score,
    so no row when [n <= 0] and all [m] rows when [n > m]. *)
Theorem select_never_raises :
  forall (df : DataFrame) (n : Z) (this : AutomatedScreening)
         (g : random.state),
  exists top rest : DataFrame,
    select_top_clones df n (this, g) = (Ok top, (this, g)) /\
    List.length top = Nat.min (Z.to_nat n) (List.length df) /\
    StronglySorted score_ge top /\
    Permutation (top ++ rest) df /\
    StronglySorted score_ge (top ++ rest).
Proof.
  intros df n this g.
  destruct (select_top_clones_spec df n (this, g))
    as (top & rest & E & Hlen & Hs & Hp & Hsa & _).
  exists top, rest. repeat split; assumption.
Qed.

(** C6, refuted as stated: on a three-clone campaign with its three-row
    table, the counts 0 and 4 both return a table (empty, and whole). *)
Lemma select_out_of_range_returns :
  num_clones campaign_003 = 3%Z /\
  select_top_clones table_3 0 (campaign_003, zero_entropy) =
    (Ok [], (campaign_003, zero_entropy)) /\
  select_top_clones table_3 4 (campaign_003, zero_entropy) =
    (Ok [row "Clone_002" 0.9; row "Clone_001" 0.5; row "Clone_003" 0.5],
     (campaign_003, zero_entropy)) /\
  ~ (forall (df : DataFrame) (n : Z) (w : AutomatedScreening * random.state),
        (n <= 0 \/ num_clones (fst w) < n)%Z ->
        exists e, fst (select_top_clones df n w) = Raise e).
Proof.
  destruct nlargest_table_3 as (_ & E0 & _ & E4).
  split; [reflexivity|].
  unfold select_top_clones. rewrite E0, E4.
  split; [reflexivity|]. split; [reflexivity|].
  intros H.
  destruct (H table_3 0%Z (campaign_003, zero_entropy)) as [e He];
    [left; lia | discriminate He].
Qed.

(** ** The clone invariant along a campaign *)

Lemma init_clones_ok (n : Z) (pf : string) (now : Z) (g g0 : random.state)
  (this : AutomatedScreening) :
  AutomatedScreening_init n pf now g = (Ok this, g0) ->
  Forall clone_ok (clones this).
Proof.
  rewrite AutomatedScreening_init_eq. intros E. injection E as <- _.
  cbv beta iota delta [clones].
  apply for_each_Forall. intros a s0.
  apply (CellLineClone_init_spec
           ("Clone_" ++ format_03d (a + 1)) "CHO-K1" s0).
Qed.

Lemma day_0_clones (w : AutomatedScreening * random.state) :
  clones (fst (snd (day_0_seed_plates w))) = clones (fst w).
Proof.
  destruct w as [this g]. unfold day_0_seed_plates.
  cbn [fst clones with_clones_log].
  destruct (clones this); reflexivity.
Qed.

Lemma day_3_clones_ok (w : AutomatedScreening * random.state) :
  Forall clone_ok (clones (fst w)) ->
  Forall clone_ok (clones (fst (snd (day_3_feed_and_sample w)))).
Proof.
  destruct w as [this g]. unfold day_3_feed_and_sample. cbn [fst]. intros H.
  pose proof (for_each_Forall_impl day_3_body clone_ok clone_ok
                (clones this) (screening_log this, g)) as HF.
  destruct (for_each day_3_body (clones this) (screening_log this, g))
    as [cs [log g']].
  cbn [fst snd clones with_clones_log] in *.
  apply HF; [|exact H]. intros a [log0 g0] Ha.
  rewrite day_3_body_eq. apply set_day3_density_ok. exact Ha.
Qed.

Lemma day_7_clones_ok (w : AutomatedScreening * random.state) :
  Forall clone_ok (clones (fst w)) ->
  Forall clone_ok (clones (fst (snd (day_7_harvest_and_analyze w)))).
Proof.
  destruct w as [this g]. unfold day_7_harvest_and_analyze. cbn [fst]. intros H.
  pose proof (harvest_loop (clones this) [] g) as HL. cbv zeta in HL.
  destruct (for_each day_7_body (clones this) ([], g)) as [cs [results g']].
  cbn [fst snd] in HL. destruct HL as (_ & _ & _ & _ & Hok & _).
  destruct results; cbn [fst snd clones with_clones_log]; apply Hok; exact H.
Qed.

Lemma run_stages_clones_ok (l : list stage)
  (w : AutomatedScreening * random.state) :
  Forall clone_ok (clones (fst w)) ->
  Forall clone_ok (clones (fst (run_stages l w))).
Proof.
  revert w. induction l as [|st l IH]; intros w H; [exact H|].
  simpl. apply IH. destruct st; simpl.
  - rewrite day_0_clones. exact H.
  - apply day_3_clones_ok. exact H.
  - apply day_7_clones_ok. exact H.
Qed.

(** Every clone of a campaign, at any point of its life, satisfies the
    invariant. *)
Lemma campaign_clones_ok (n : Z) (pf : string) (now : Z)
  (g g0 : random.state) (this : AutomatedScreening) (l : list stage)
  (c : CellLineClone) :
  AutomatedScreening_init n pf now g = (Ok this, g0) ->
  In c (clones (fst (run_stages l (this, g0)))) ->
  clone_ok c.
Proof.
  intros E Hin.
  pose proof (run_stages_clones_ok l (this, g0)
                (init_clones_ok n pf now g g0 this E)) as H.
  rewrite Forall_forall in H. apply H. exact Hin.
Qed.

(** *** The sample campaign is the one the constructor builds *)

Lemma Zfloor_0 : Zfloor 0 = 0%Z.
Proof. apply Zfloor_eq. simpl. lra. Qed.

Lemma CellLineClone_init_zero (name : string) (k : nat) :
  CellLineClone_init name "CHO-K1"
    {| random.entropy := fun _ => 0; random.cursor := k |} =
  (clone_named name,
   {| random.entropy := fun _ => 0; random.cursor := 6 + k |}).
Proof.
  unfold CellLineClone_init, random.gauss, random.choice, random.uniform,
    random.random, random.next, bind, ret.
  cbv beta iota delta [fst snd random.entropy random.cursor].
  rewrite fp_R0, !Rmult_0_l, !Rmult_0_r, !Rplus_0_r, Zfloor_0.
  cbn [Z.to_nat nth]. unfold clone_named.
  f_equal. f_equal; try lra;
    (rewrite Rmin_right by lra); (rewrite Rmax_right by lra); reflexivity.
Qed.

Example init_zero_entropy :
  AutomatedScreening_init 3 "96-well" 0 zero_entropy =
  (Ok campaign_003, zero_entropy_18).
Proof.
  rewrite AutomatedScreening_init_eq. cbv zeta.
  change (range 3) with [0; 1; 2]%nat. unfold zero_entropy.
  rewrite !for_each_cons, !CellLineClone_init_zero. cbn [fst snd].
  rewrite !CellLineClone_init_zero. cbn [fst snd].
  rewrite !CellLineClone_init_zero. cbn [fst snd for_each ret].
  reflexivity.
Qed.

(** The sample campaign after seeding and harvesting: every clone got the
    noise value [1.0 + 0 * 0.1]. *)
Example seed_harvest_003 :
  clones (fst (run_stages [Seed; Harvest] (campaign_003, zero_entropy_18))) =
  [harvested_named "Clone_001"; harvested_named "Clone_002";
   harvested_named "Clone_003"].
Proof.
  unfold run_stages, zero_entropy_18. cbn [fold_left run_stage].
  unfold day_0_seed_plates, day_7_harvest_and_analyze, campaign_003.
  cbn [clones screening_log with_clones_log fold_left snd fst].
  rewrite !for_each_cons, !day_7_body_eq. cbn [fst snd].
  rewrite !day_7_body_eq. cbn [fst snd].
  rewrite !day_7_body_eq. cbn [fst snd for_each ret app].
  reflexivity.
Qed.

(** C8.  For every clone of a campaign, at any point of the campaign's
    life, and all days [d1 <= d2]: the density that [grow] returns for
    [d1] is at most the one for [d2], neither exceeds 8e6, the viability
    for [d1] is at least the one for [d2], and neither is below 60. *)
Theorem grow_monotone :
  forall (n : Z) (pf : string) (now : Z) (g g0 g' : random.state)
         (this : AutomatedScreening) (l : list stage) (c : CellLineClone)
         (d1 d2 : R),
    AutomatedScreening_init n pf now g = (Ok this, g0) ->
    In c (clones (fst (run_stages l (this, g0)))) ->
    d1 <= d2 ->
    fst (fst (grow d1 (c, g'))) <= fst (fst (grow d2 (c, g'))) /\
    fst (fst (grow d1 (c, g'))) <= 8e6 /\
    fst (fst (grow d2 (c, g'))) <= 8e6 /\
    snd (fst (grow d2 (c, g'))) <= snd (fst (grow d1 (c, g'))) /\
    60 <= snd (fst (grow d1 (c, g'))) /\
    60 <= snd (fst (grow d2 (c, g'))).
Proof.
  intros n pf now g g0 g' this l c d1 d2 E Hin Hd.
  apply grow_monotone_of_ok; [|exact Hd].
  exact (campaign_clones_ok n pf now g g0 this l c E Hin).
Qed.

Lemma grow_monotone_witness :
  AutomatedScreening_init 3 "96-well" 0 zero_entropy =
    (Ok campaign_003, zero_entropy_18) /\
  In (harvested_named "Clone_002")
     (clones (fst (run_stages [Seed; Harvest]
                     (campaign_003, zero_entropy_18)))) /\
  3 <= 7 /\
  fst (fst (grow 3 (harvested_named "Clone_002", zero_entropy))) <=
    fst (fst (grow 7 (harvested_named "Clone_002", zero_entropy))) /\
  snd (fst (grow 7 (harvested_named "Clone_002", zero_entropy))) <=
    snd (fst (grow 3 (harvested_named "Clone_002", zero_entropy))).
Proof.
  assert (Hin : In (harvested_named "Clone_002")
                   (clones (fst (run_stages [Seed; Harvest]
                                   (campaign_003, zero_entropy_18))))).
  { rewrite seed_harvest_003. right. left. reflexivity. }
  assert (H37 : 3 <= 7) by lra.
  pose proof (grow_monotone 3 "96-well" 0 zero_entropy zero_entropy_18
                zero_entropy campaign_003 [Seed; Harvest]
                (harvested_named "Clone_002") 3 7
                init_zero_entropy Hin H37)
    as (H1 & _ & _ & H2 & _).
  split; [exact init_zero_entropy|]. split; [exact Hin|].
  split; [exact H37|]. split; assumption.
Defined.

(** C10.  Every clone of a campaign, at any point of the campaign's life
    (so with or without Day-7 observations), scores between -0.1 and
    1.1. *)
Theorem score_bounded :
  forall (n : Z) (pf : string) (now : Z) (g g0 g' : random.state)
         (this : AutomatedScreening) (l : list stage) (c : CellLineClone),
    AutomatedScreening_init n pf now g = (Ok this, g0) ->
    In c (clones (fst (run_stages l (this, g0)))) ->
    -0.1 <= fst (score (c, g')) <= 1.1.
Proof.
  intros n pf now g g0 g' this l c E Hin.
  apply score_bounded_of_ok.
  exact (campaign_clones_ok n pf now g g0 this l c E Hin).
Qed.

Lemma score_bounded_witness :
  AutomatedScreening_init 3 "96-well" 0 zero_entropy =
    (Ok campaign_003, zero_entropy_18) /\
  In (harvested_named "Clone_001")
     (clones (fst (run_stages [Seed; Harvest]
                     (campaign_003, zero_entropy_18)))) /\
  -0.1 <= fst (score (harvested_named "Clone_001", zero_entropy)) <= 1.1.
Proof.
  assert (Hin : In (harvested_named "Clone_001")
                   (clones (fst (run_stages [Seed; Harvest]
                                   (campaign_003, zero_entropy_18))))).
  { rewrite seed_harvest_003. left. reflexivity. }
  split; [exact init_zero_entropy|]. split; [exact Hin|].
  exact (score_bounded 3 "96-well" 0 zero_entropy zero_entropy_18
           zero_entropy campaign_003 [Seed; Harvest]
           (harvested_named "Clone_001") init_zero_entropy Hin).
Defined.

(** *** The harvest of the sample clone

    With the mean noise draw the sample clone reaches the density ceiling
    after seven days, keeps a viability of 90.5 and a titer of 2.2625, and
    scores 0.828. *)

Lemma exp_ge_16 : 16 <= exp (0.032 * (7 * 24)).
Proof.
  replace (0.032 * (7 * 24)) with (1.344 + 1.344 + (1.344 + 1.344)) by lra.
  rewrite exp_plus. rewrite (exp_plus 1.344 1.344).
  assert (H : 1 + 1.344 < exp 1.344) by (apply exp_ineq1; lra).
  assert (H2 : 5 < exp 1.344 * exp 1.344) by nra.
  nra.
Qed.

Example harvest_sample_clone :
  day7_density (harvested_named "Clone_001") = Some 8e6 /\
  day7_viability (harvested_named "Clone_001") = Some 90.5 /\
  day7_titer (harvested_named "Clone_001") = Some 2.2625 /\
  Score (harvest_row (harvested_named "Clone_001")) = 0.828.
Proof.
  assert (Ed : fst (grow_spec (clone_named "Clone_001") 7) = 8e6).
  { unfold grow_spec, clone_named. cbn [fst day0_density growth_rate].
    apply Rmin_right. pose proof exp_ge_16 as H.
    replace (0.032 * 7 * 24) with (0.032 * (7 * 24)) by lra. lra. }
  assert (Ev : snd (grow_spec (clone_named "Clone_001") 7) = 90.5).
  { unfold grow_spec, clone_named. cbn [snd viability].
    rewrite Rmax_right by lra. lra. }
  assert (Et : Rmax 0.1 (raw_titer (clone_named "Clone_001") 7 * (1.0 + 0 * 0.1))
               = 2.2625).
  { unfold raw_titer. rewrite Ev. unfold clone_named. cbn [base_titer].
    rewrite Rmax_right by lra. lra. }
  unfold harvested_named, harvest_clone. rewrite Ed, Ev, Et.
  cbn [set_day7 day7_density day7_viability day7_titer].
  split; [reflexivity|]. split; [reflexivity|]. split; [reflexivity|].
  unfold harvest_row, score_spec, aggregation_penalty, clone_named.
  cbn [Score set_day7 day7_titer day7_viability growth_rate stability
       glycosylation_pattern aggregation_level].
  replace 0.828 with (IZR 828 / 10 ^ 3) by lra.
  apply round_near. unfold Rmin. case_R; lra.
Qed.

(** ** The timepoint loops, in closed form *)

Lemma seed_loop (cs : list CellLineClone) (log : list LogEntry) :
  fold_left
    (fun log clone => log ++ [seeded 0 (id clone) 200 (day0_density clone)])
    cs log =
  log ++ map seed_entry cs.
Proof.
  revert log. induction cs as [|c cs IH]; intros log; simpl.
  - rewrite app_nil_r. reflexivity.
  - rewrite IH, <- app_assoc. reflexivity.
Qed.

Lemma feed_loop (cs : list CellLineClone) (log : list LogEntry)
  (g : random.state) :
  for_each day_3_body cs (log, g) =
  (map feed_clone cs, (log ++ map feed_entry cs, g)).
Proof.
  revert log. induction cs as [|c cs IH]; intros log.
  - simpl. unfold ret. rewrite app_nil_r. reflexivity.
  - rewrite for_each_cons, day_3_body_eq. cbn [fst snd].
    rewrite IH. cbn [fst snd map]. rewrite <- app_assoc. reflexivity.
Qed.

Lemma advance_succ (k : nat) (g : random.state) :
  advance k (snd (random.gauss 1.0 0.1 g)) = advance (S k) g.
Proof.
  unfold advance, random.gauss, random.next, bind, ret.
  cbn [snd random.entropy random.cursor]. f_equal. lia.
Qed.

Lemma harvest_loop_closed (cs : list CellLineClone) (results : DataFrame)
  (g : random.state) :
  for_each day_7_body cs (results, g) =
  (harvest_all (random.entropy g) (random.cursor g) cs,
   (results ++
      map harvest_row (harvest_all (random.entropy g) (random.cursor g) cs),
    advance (List.length cs) g)).
Proof.
  revert results g. induction cs as [|c cs IH]; intros results g.
  - simpl. unfold ret, advance. rewrite app_nil_r. destruct g; reflexivity.
  - rewrite for_each_cons, day_7_body_eq. cbn [fst snd].
    rewrite IH. cbn [fst snd]. rewrite advance_succ.
    cbn [harvest_all map List.length]. rewrite <- app_assoc.
    reflexivity.
Qed.


Lemma with_clones_log_same (this : AutomatedScreening) :
  with_clones_log this (clones this) (screening_log this) = this.
Proof. destruct this. reflexivity. Qed.

(** The harvest, in closed form. *)
Lemma day_7_harvest_closed (this : AutomatedScreening) (g : random.state) :
  let cs := harvest_all (random.entropy g) (random.cursor g) (clones this) in
  day_7_harvest_and_analyze (this, g) =
  (match clones this with
   | [] => Raise KeyError
   | _ :: _ => Ok (map harvest_row cs)
   end,
   (with_clones_log this cs (screening_log this),
    advance (List.length (clones this)) g)).
Proof.
  intros cs. unfold day_7_harvest_and_analyze.
  rewrite harvest_loop_closed. fold cs. cbn [app].
  subst cs. destruct (clones this) as [|c l]; reflexivity.
Qed.

(** X1.  Seeding a campaign that has at least one clone returns normally,
    appends to the log one record per clone, in creation order, with
    day 0, 200 uL and the clone's seeding density, and changes neither
    the clones, nor the configuration, nor the generator. *)
Theorem seeding_logs_every_clone :
  forall (this : AutomatedScreening) (g : random.state),
    clones this <> [] ->
    exists this' : AutomatedScreening,
      day_0_seed_plates (this, g) = (Ok tt, (this', g)) /\
      screening_log this' =
        screening_log this ++
        map (fun c => seeded 0 (id c) 200 (day0_density c)) (clones this) /\
      clones this' = clones this /\
      configuration this' = configuration this.
Proof.
  intros this g Hne. unfold day_0_seed_plates. rewrite seed_loop.
  cbn [clones with_clones_log].
  destruct (clones this) as [|c l] eqn:E; [contradiction|].
  eexists. split; [reflexivity|].
  cbn [clones screening_log with_clones_log]. repeat split.
Qed.

Lemma seeding_logs_every_clone_witness :
  clones campaign_003 <> [] /\
  exists this' : AutomatedScreening,
    day_0_seed_plates (campaign_003, zero_entropy_18) =
      (Ok tt, (this', zero_entropy_18)) /\
    screening_log this' =
      [seeded 0 "Clone_001" 200 0.5e6; seeded 0 "Clone_002" 200 0.5e6;
       seeded 0 "Clone_003" 200 0.5e6] /\
    clones this' = clones campaign_003.
Proof.
  assert (Hne : clones campaign_003 <> []) by discriminate.
  split; [exact Hne|].
  destruct (seeding_logs_every_clone campaign_003 zero_entropy_18 Hne)
    as (this' & E & Hlog & Hcs & _).
  exists this'. repeat split; assumption.
Defined.

(** X2.  A campaign constructed with a non-positive [num_clones] cannot be
    run: its population is empty, so seeding raises [IndexError] (from
    [self.clones[0]]), and so does the full campaign, both leaving the
    campaign and the generator exactly as the constructor returned
    them. *)
Theorem empty_campaign_cannot_be_seeded :
  forall (n : Z) (pf : string) (now : Z) (g : random.state),
    (n <= 0)%Z ->
    exists this : AutomatedScreening,
      AutomatedScreening_init n pf now g = (Ok this, g) /\
      clones this = [] /\
      day_0_seed_plates (this, g) = (Raise IndexError, (this, g)) /\
      run_full_screening_campaign (this, g) = (Raise IndexError, (this, g)).
Proof.
  intros n pf now g Hn. rewrite AutomatedScreening_init_eq. cbv zeta.
  unfold range. replace (Z.to_nat n) with 0%nat by lia.
  cbn [seq for_each ret fst snd].
  eexists. split; [reflexivity|]. split; [reflexivity|].
  split; [reflexivity|].
  unfold run_full_screening_campaign, and_then. reflexivity.
Qed.

Lemma empty_campaign_cannot_be_seeded_witness :
  (0 <= 0)%Z /\
  exists this : AutomatedScreening,
    AutomatedScreening_init 0 "96-well" 0 zero_entropy =
      (Ok this, zero_entropy) /\
    day_0_seed_plates (this, zero_entropy) =
      (Raise IndexError, (this, zero_entropy)).
Proof.
  assert (H0 : (0 <= 0)%Z) by lia.
  split; [exact H0|].
  destruct (empty_campaign_cannot_be_seeded 0 "96-well" 0 zero_entropy H0)
    as (this & E & _ & Hs & _).
  exists this. split; assumption.
Defined.

(** X3.  The Day-3 step never raises and draws nothing: it stores on every
    clone the density that [grow(3)] returns, touching no other attribute,
    and appends one record per clone, in creation order, with that
    density and the Day-3 viability. *)
Theorem feeding_records_day3_density :
  forall (this : AutomatedScreening) (g : random.state),
  exists this' : AutomatedScreening,
    day_3_feed_and_sample (this, g) = (Ok tt, (this', g)) /\
    clones this' =
      map (fun c => set_day3_density c (fst (fst (grow 3 (c, g)))))
          (clones this) /\
    screening_log this' =
      screening_log this ++
      map (fun c => fed_and_sampled 3 (id c) 50 50
                      (fst (fst (grow 3 (c, g))))
                      (snd (fst (grow 3 (c, g)))))
          (clones this) /\
    map intrinsic (clones this') = map intrinsic (clones this) /\
    map day7_titer (clones this') = map day7_titer (clones this) /\
    configuration this' = configuration this.
Proof.
  intros this g. unfold day_3_feed_and_sample. rewrite feed_loop.
  eexists. split; [reflexivity|].
  cbn [clones screening_log with_clones_log].
  split; [apply map_ext; intros c; rewrite grow_pure; reflexivity|].
  split.
  { f_equal. apply map_ext. intros c. rewrite grow_pure. reflexivity. }
  rewrite !map_map. repeat split.
Qed.

(** X4.  Feeding twice leaves the clones as feeding once does: the second
    pass stores the same Day-3 density again (only the log grows). *)
Theorem feeding_twice_same_clones :
  forall (w : AutomatedScreening * random.state),
    clones (fst (snd (day_3_feed_and_sample
                        (snd (day_3_feed_and_sample w))))) =
    clones (fst (snd (day_3_feed_and_sample w))).
Proof.
  intros [this g]. unfold day_3_feed_and_sample. rewrite feed_loop.
  cbn [fst snd clones screening_log with_clones_log].
  rewrite feed_loop. cbn [fst snd clones with_clones_log].
  rewrite map_map. apply map_ext. intros c. reflexivity.
Qed.

(** X5.  The harvest of a campaign without clones raises [KeyError] (the
    statistics read a column of a frame that has none) and leaves the
    campaign and the generator as they were. *)
Theorem harvest_empty_raises :
  forall (this : AutomatedScreening) (g : random.state),
    clones this = [] ->
    day_7_harvest_and_analyze (this, g) = (Raise KeyError, (this, g)).
Proof.
  intros this g E. rewrite day_7_harvest_closed. cbv zeta. rewrite E.
  cbn [harvest_all List.length]. rewrite <- E at 1.
  rewrite with_clones_log_same. unfold advance. destruct g; reflexivity.
Qed.

Lemma harvest_empty_raises_witness :
  clones {| num_clones := 0; plate_format := "96-well"; clones := [];
            screening_log := []; start_date := 0 |} = [] /\
  day_7_harvest_and_analyze
    ({| num_clones := 0; plate_format := "96-well"; clones := [];
        screening_log := []; start_date := 0 |}, zero_entropy) =
  (Raise KeyError,
   ({| num_clones := 0; plate_format := "96-well"; clones := [];
       screening_log := []; start_date := 0 |}, zero_entropy)).
Proof.
  split; [reflexivity|].
  apply (harvest_empty_raises
           {| num_clones := 0; plate_format := "96-well"; clones := [];
              screening_log := []; start_date := 0 |} zero_entropy).
  reflexivity.
Defined.

(** ** Draws *)

Lemma advance_0 (g : random.state) : advance 0 g = g.
Proof. destruct g. reflexivity. Qed.

Lemma advance_advance (a b : nat) (g : random.state) :
  advance a (advance b g) = advance (a + b) g.
Proof. unfold advance. cbn [random.entropy random.cursor]. f_equal. lia. Qed.

Lemma CellLineClone_init_draws (clone_id parent_line : string)
  (g : random.state) :
  snd (CellLineClone_init clone_id parent_line g) = advance 6 g.
Proof. reflexivity. Qed.

Lemma for_each_seq_closed {B : Type} (body : nat -> State random.state B)
  (d : nat) (k a : nat) (g : random.state) :
  (forall i s, snd (body i s) = advance d s) ->
  for_each body (seq a k) g =
  (map (fun i => fst (body i (advance (d * (i - a)) g))) (seq a k),
   advance (d * k) g).
Proof.
  intros Hd. revert a g. induction k as [|k IH]; intros a g.
  - simpl. unfold ret. rewrite Nat.mul_0_r, advance_0. reflexivity.
  - cbn [seq]. rewrite for_each_cons, Hd, (IH (S a)). cbn [fst snd map].
    rewrite Nat.sub_diag, Nat.mul_0_r, advance_0, advance_advance.
    f_equal; [|f_equal; lia].
    f_equal. apply map_ext_in. intros i Hi. apply in_seq in Hi.
    rewrite advance_advance. do 3 f_equal.
    replace (i - a)%nat with (S (i - S a)) by lia. lia.
Qed.

(** X6.  The constructor takes exactly six draws per clone, in creation
    order: the clone of rank [i] (from 0) is the one that
    [CellLineClone("Clone_...")] builds from the generator advanced by
    [6 * i] draws, and the generator comes back advanced by
    [6 * max(0, num_clones)] draws. *)
Theorem constructor_draws_six_per_clone :
  forall (n : Z) (pf : string) (now : Z) (g : random.state),
  exists this : AutomatedScreening,
    AutomatedScreening_init n pf now g =
      (Ok this, advance (6 * Z.to_nat n) g) /\
    clones this =
      map (fun i =>
             fst (CellLineClone_init ("Clone_" ++ format_03d (i + 1)) "CHO-K1"
                    (advance (6 * i) g)))
          (seq 0 (Z.to_nat n)).
Proof.
  intros n pf now g. rewrite AutomatedScreening_init_eq. cbv zeta.
  unfold range.
  rewrite (for_each_seq_closed _ 6 (Z.to_nat n) 0 g)
    by (intros i s; apply CellLineClone_init_draws).
  cbn [fst snd]. eexists. split; [reflexivity|].
  cbn [clones]. apply map_ext. intros i. rewrite Nat.sub_0_r. reflexivity.
Qed.

(** X7.  The harvest of a non-empty campaign takes exactly one draw per
    clone, in creation order: each clone is stored its Day-7 density and
    viability from [grow(7)] and the titer computed from its own draw,
    the table has one row per clone computed from the clone after the
    update, and the log and the configuration are untouched. *)
Theorem harvest_draws_one_per_clone :
  forall (this : AutomatedScreening) (g : random.state),
    clones this <> [] ->
    exists (df : DataFrame) (this' : AutomatedScreening),
      day_7_harvest_and_analyze (this, g) =
        (Ok df, (this', advance (List.length (clones this)) g)) /\
      clones this' =
        harvest_all (random.entropy g) (random.cursor g) (clones this) /\
      df = map harvest_row (clones this') /\
      map Score df = map (fun c => fst (score (c, g))) (clones this') /\
      screening_log this' = screening_log this /\
      configuration this' = configuration this.
Proof.
  intros this g Hne. rewrite day_7_harvest_closed. cbv zeta.
  destruct (clones this) as [|c l] eqn:E; [contradiction|].
  eexists. eexists. split; [reflexivity|].
  cbn [clones screening_log with_clones_log].
  split; [reflexivity|]. split; [reflexivity|].
  split; [|split; reflexivity].
  rewrite map_map. apply map_ext. intros a. rewrite score_pure. reflexivity.
Qed.

Lemma harvest_draws_one_per_clone_witness :
  clones campaign_003 <> [] /\
  exists (df : DataFrame) (this' : AutomatedScreening),
    day_7_harvest_and_analyze (campaign_003, zero_entropy_18) =
      (Ok df, (this', advance 3 zero_entropy_18)) /\
    clones this' =
      [harvested_named "Clone_001"; harvested_named "Clone_002";
       harvested_named "Clone_003"] /\
    df = map harvest_row (clones this').
Proof.
  assert (Hne : clones campaign_003 <> []) by discriminate.
  split; [exact Hne|].
  destruct (harvest_draws_one_per_clone campaign_003 zero_entropy_18 Hne)
    as (df & this' & E & Hcs & Hdf & _).
  exists df, this'. repeat split; assumption.
Defined.

(** ** What no step changes *)

Lemma harvest_all_intrinsic (e : nat -> R) (k : nat)
  (cs : list CellLineClone) :
  map intrinsic (harvest_all e k cs) = map intrinsic cs.
Proof.
  revert k. induction cs as [|c cs IH]; intros k; [reflexivity|].
  cbn [harvest_all map]. rewrite IH. reflexivity.
Qed.

Lemma run_stage_frame (st : stage) (w : AutomatedScreening * random.state) :
  map intrinsic (clones (fst (run_stage st w))) =
    map intrinsic (clones (fst w)) /\
  configuration (fst (run_stage st w)) = configuration (fst w) /\
  (exists suffix,
      screening_log (fst (run_stage st w)) =
      screening_log (fst w) ++ suffix) /\
  snd (run_stage st w) =
    advance (if before_harvest st then 0
             else List.length (clones (fst w))) (snd w).
Proof.
  destruct w as [this g]. destruct st; cbn [run_stage before_harvest fst snd].
  - unfold day_0_seed_plates. rewrite seed_loop.
    cbn [clones with_clones_log].
    destruct (clones this) as [|c l] eqn:E;
      cbn [fst snd clones screening_log with_clones_log];
      rewrite advance_0;
      (split; [rewrite ?E; reflexivity|]); (split; [reflexivity|]);
      (split; [eexists; reflexivity | reflexivity]).
  - unfold day_3_feed_and_sample. rewrite feed_loop.
    cbn [fst snd clones screening_log with_clones_log].
    rewrite advance_0, map_map.
    split; [reflexivity|]. split; [reflexivity|].
    split; [eexists; reflexivity | reflexivity].
  - rewrite day_7_harvest_closed. cbv zeta.
    cbn [fst snd clones screening_log with_clones_log].
    rewrite harvest_all_intrinsic.
    split; [reflexivity|]. split; [reflexivity|].
    split; [exists []; rewrite app_nil_r; reflexivity | reflexivity].
Qed.

Lemma map_intrinsic_length (cs cs' : list CellLineClone) :
  map intrinsic cs = map intrinsic cs' -> List.length cs = List.length cs'.
Proof.
  intros H. apply (f_equal (@List.length _)) in H.
  rewrite !length_map in H. exact H.
Qed.

(** X8.  Along any sequence of timepoint steps, in any order and with
    repetitions, the identity and the intrinsic parameters of every clone
    and the campaign's configuration stay as they were, and the log only
    grows at its end. *)
Theorem steps_keep_intrinsic_parameters :
  forall (l : list stage) (w : AutomatedScreening * random.state),
    map intrinsic (clones (fst (run_stages l w))) =
      map intrinsic (clones (fst w)) /\
    configuration (fst (run_stages l w)) = configuration (fst w) /\
    exists suffix,
      screening_log (fst (run_stages l w)) =
      screening_log (fst w) ++ suffix.
Proof.
  induction l as [|st l IH]; intros w.
  - split; [reflexivity|]. split; [reflexivity|].
    exists []. rewrite app_nil_r. reflexivity.
  - cbn [run_stages fold_left]. fold (run_stages l (run_stage st w)).
    destruct (IH (run_stage st w)) as (Hi & Hc & s2 & Hl).
    destruct (run_stage_frame st w) as (Hi1 & Hc1 & (s1 & Hl1) & _).
    split; [congruence|]. split; [congruence|].
    exists (s1 ++ s2). rewrite Hl, Hl1, app_assoc. reflexivity.
Qed.

(** X9.  Only the harvest draws: along any sequence of timepoint steps the
    generator advances by one draw per clone for each harvest in the
    sequence, and by nothing else. *)
Theorem steps_draw_only_at_harvest :
  forall (l : list stage) (w : AutomatedScreening * random.state),
    snd (run_stages l w) =
    advance (List.length (filter (fun st => negb (before_harvest st)) l) *
             List.length (clones (fst w)))
            (snd w).
Proof.
  induction l as [|st l IH]; intros w.
  - simpl. rewrite advance_0. reflexivity.
  - cbn [run_stages fold_left]. fold (run_stages l (run_stage st w)).
    rewrite IH.
    destruct (run_stage_frame st w) as (Hi & _ & _ & Hg).
    apply map_intrinsic_length in Hi. rewrite Hi, Hg, advance_advance.
    f_equal. cbn [filter].
    destruct st; cbn [before_harvest negb List.length]; lia.
Qed.

(** ** The harvest table *)

Lemma harvest_row_intrinsic (c c' : CellLineClone) (z : R) :
  intrinsic c = intrinsic c' ->
  harvest_row (harvest_clone c z) = harvest_row (harvest_clone c' z).
Proof.
  destruct c, c'. unfold intrinsic. cbn. intros H.
  injection H as -> -> -> -> -> -> -> -> ->. reflexivity.
Qed.

Lemma harvest_rows_intrinsic (e : nat -> R) (k : nat)
  (cs cs' : list CellLineClone) :
  map intrinsic cs = map intrinsic cs' ->
  map harvest_row (harvest_all e k cs) = map harvest_row (harvest_all e k cs').
Proof.
  revert k cs'. induction cs as [|c cs IH]; intros k [|c' cs'] H;
    try discriminate; [reflexivity|].
  assert (Hc : intrinsic c = intrinsic c').
  { apply (f_equal (hd (intrinsic c))) in H. exact H. }
  assert (Hcs : map intrinsic cs = map intrinsic cs').
  { apply (f_equal (@tl _)) in H. exact H. }
  cbn [harvest_all map]. f_equal; [|apply IH; exact Hcs].
  apply harvest_row_intrinsic. exact Hc.
Qed.

Lemma run_stages_before_harvest (l : list stage)
  (w : AutomatedScreening * random.state) :
  forallb before_harvest l = true ->
  map intrinsic (clones (fst (run_stages l w))) =
    map intrinsic (clones (fst w)) /\
  snd (run_stages l w) = snd w.
Proof.
  revert w. induction l as [|st l IH]; intros w H; [split; reflexivity|].
  cbn [forallb] in H. apply andb_prop in H as [Hst Hl].
  cbn [run_stages fold_left]. fold (run_stages l (run_stage st w)).
  destruct (IH (run_stage st w) Hl) as [Hi Hg].
  destruct (run_stage_frame st w) as (Hi1 & _ & _ & Hg1).
  rewrite Hst, advance_0 in Hg1. split; congruence.
Qed.

(** X10.  The harvest reads nothing that seeding or feeding writes: after
    any sequence of those two steps it returns the same outcome, table
    included, as on the campaign they started from. *)
Theorem harvest_table_ignores_earlier_steps :
  forall (l : list stage) (w : AutomatedScreening * random.state),
    forallb before_harvest l = true ->
    fst (day_7_harvest_and_analyze (run_stages l w)) =
    fst (day_7_harvest_and_analyze w).
Proof.
  intros l w H.
  destruct (run_stages_before_harvest l w H) as [Hi Hg].
  destruct (run_stages l w) as [this' g'], w as [this g].
  cbn [fst snd] in *. subst g'.
  rewrite !day_7_harvest_closed. cbv zeta. cbn [fst].
  rewrite (harvest_rows_intrinsic _ _ _ _ Hi).
  destruct (clones this') as [|c' l'], (clones this) as [|c0 l0];
    try discriminate; reflexivity.
Qed.

Lemma harvest_table_ignores_earlier_steps_witness :
  forallb before_harvest [Seed; Feed; Feed] = true /\
  fst (day_7_harvest_and_analyze
         (run_stages [Seed; Feed; Feed] (campaign_003, zero_entropy_18))) =
  fst (day_7_harvest_and_analyze (campaign_003, zero_entropy_18)).
Proof.
  split; [reflexivity|].
  apply (harvest_table_ignores_earlier_steps [Seed; Feed; Feed]
           (campaign_003, zero_entropy_18)).
  reflexivity.
Defined.

Lemma round_ge (lo : Z) (x : R) (n : nat) :
  IZR lo / 10 ^ n <= x -> IZR lo / 10 ^ n <= round x n.
Proof.
  intros Hlo. unfold round. pose proof (pow10_pos n) as Hp.
  assert (H1 : IZR lo <= x * 10 ^ n).
  { apply (Rmult_le_compat_r (10 ^ n)) in Hlo; [|lra].
    unfold Rdiv in Hlo. rewrite Rmult_assoc, Rinv_l in Hlo; lra. }
  apply round_half_even_lower, IZR_le in H1.
  apply Rmult_le_compat_r; [|exact H1].
  apply Rlt_le, Rinv_0_lt_compat. exact Hp.
Qed.

Lemma exp_ge_1 (x : R) : 0 <= x -> 1 <= exp x.
Proof. intros H. rewrite <- exp_0. apply exp_le. exact H. Qed.

Lemma harvest_row_in_range (c : CellLineClone) (z : R) :
  clone_ok c -> row_in_range (harvest_row (harvest_clone c z)).
Proof.
  intros Hok. pose proof (harvest_clone_ok c z Hok) as Hok'.
  destruct Hok as [Hb Hg Hv Ha H0 _ _].
  unfold row_in_range, harvest_row, harvest_clone, grow_spec.
  cbn [Titer Viability VCD Growth_Rate Aggregates Score Stable set_day7
       day7_titer day7_viability day7_density growth_rate aggregation_level
       stability the fst snd].
  split.
  { replace 0.1 with (IZR 10 / 10 ^ 2) by lra. apply round_ge.
    replace (IZR 10 / 10 ^ 2) with 0.1 by lra. apply Rmax_l. }
  split.
  { replace 60 with (IZR 600 / 10 ^ 1) by lra.
    replace 95.5 with (IZR 955 / 10 ^ 1) by lra. apply round_between.
    replace (IZR 600 / 10 ^ 1) with 60 by lra.
    replace (IZR 955 / 10 ^ 1) with 95.5 by lra.
    split; [apply Rmax_l | apply Rmax_lub; lra]. }
  split.
  { replace 0.5 with (IZR 50 / 10 ^ 2) by lra.
    replace 8 with (IZR 800 / 10 ^ 2) by lra. apply round_between.
    replace (IZR 50 / 10 ^ 2) with 0.5 by lra.
    replace (IZR 800 / 10 ^ 2) with 8 by lra.
    assert (He : 1 <= exp (growth_rate c * 7 * 24)) by (apply exp_ge_1; lra).
    rewrite H0.
    pose proof (Rmin_r (0.5e6 * exp (growth_rate c * 7 * 24)) 8e6) as Hr.
    assert (Hl : 0.5e6 <= Rmin (0.5e6 * exp (growth_rate c * 7 * 24)) 8e6).
    { apply Rmin_glb; lra. }
    lra. }
  split.
  { replace 0.015 with (IZR 150 / 10 ^ 4) by lra.
    replace 0.05 with (IZR 500 / 10 ^ 4) by lra. apply round_between. lra. }
  split.
  { replace 0.5 with (IZR 5 / 10 ^ 1) by lra.
    replace 8 with (IZR 80 / 10 ^ 1) by lra. apply round_between. lra. }
  split.
  { pose proof (score_bounded_of_ok _ zero_entropy Hok') as Hs.
    rewrite score_pure in Hs. exact Hs. }
  destruct (stability c); [left | right]; reflexivity.
Qed.

Lemma harvest_rows_from (e : nat -> R) (k : nat) (cs : list CellLineClone)
  (r : ResultRow) :
  In r (map harvest_row (harvest_all e k cs)) ->
  exists c z, In c cs /\ r = harvest_row (harvest_clone c z).
Proof.
  revert k. induction cs as [|c cs IH]; intros k H; [contradiction|].
  cbn [harvest_all map In] in H. destruct H as [<-|H].
  - exists c, (1.0 + e k * 0.1). split; [left|]; reflexivity.
  - destruct (IH _ H) as (c' & z & Hin & Hr).
    exists c', z. split; [right|]; assumption.
Qed.

(** X11.  Every row of a table that the harvest returns, on a campaign
    built by the constructor and taken through any steps, has its columns
    in range: titer at least 0.1, viability in [60, 95.5], density in
    [0.5, 8] million per mL, growth rate in [0.015, 0.05], aggregates in
    [0.5, 8], score in [-0.1, 1.1], and the stability flag spelled Yes or
    No. *)
Theorem harvest_rows_in_range :
  forall (n : Z) (pf : string) (now : Z) (g g0 : random.state)
         (this : AutomatedScreening) (l : list stage) (df : DataFrame)
         (w' : AutomatedScreening * random.state),
    AutomatedScreening_init n pf now g = (Ok this, g0) ->
    day_7_harvest_and_analyze (run_stages l (this, g0)) = (Ok df, w') ->
    Forall row_in_range df.
Proof.
  intros n pf now g g0 this l df w' E H.
  pose proof (campaign_clones_ok n pf now g g0 this l) as Hok.
  specialize (fun c => Hok c E).
  destruct (run_stages l (this, g0)) as [this1 g1]. cbn [fst] in Hok.
  rewrite day_7_harvest_closed in H. cbv zeta in H.
  destruct (clones this1) as [|c cs] eqn:Ecs; [discriminate|].
  injection H as <- _.
  apply Forall_forall. intros r Hr.
  change (In r (map harvest_row
                  (harvest_all (random.entropy g1) (random.cursor g1)
                     (c :: cs)))) in Hr.
  apply harvest_rows_from in Hr as (c' & z & Hin & ->).
  apply harvest_row_in_range. apply Hok. exact Hin.
Qed.

Example harvest_003 :
  day_7_harvest_and_analyze (run_stages [] (campaign_003, zero_entropy_18)) =
  (Ok [harvest_row (harvested_named "Clone_001");
       harvest_row (harvested_named "Clone_002");
       harvest_row (harvested_named "Clone_003")],
   (with_clones_log campaign_003
      [harvested_named "Clone_001"; harvested_named "Clone_002";
       harvested_named "Clone_003"] [],
    advance 3 zero_entropy_18)).
Proof.
  cbn [run_stages fold_left]. rewrite day_7_harvest_closed. reflexivity.
Qed.

Lemma harvest_rows_in_range_witness :
  AutomatedScreening_init 3 "96-well" 0 zero_entropy =
    (Ok campaign_003, zero_entropy_18) /\
  Forall row_in_range
    [harvest_row (harvested_named "Clone_001");
     harvest_row (harvested_named "Clone_002");
     harvest_row (harvested_named "Clone_003")].
Proof.
  split; [exact init_zero_entropy|].
  exact (harvest_rows_in_range 3 "96-well" 0 zero_entropy zero_entropy_18
           campaign_003 [] _ _ init_zero_entropy harvest_003).
Defined.

(** ** The full campaign *)



Lemma nlargest_incl (n : Z) (df : DataFrame) : incl (nlargest n df) df.
Proof.
  intros r Hr. unfold nlargest in Hr.
  apply (Permutation_in _ (sort_desc_perm df)).
  rewrite <- (firstn_skipn (Z.to_nat n) (sort_desc df)).
  apply in_or_app. left. exact Hr.
Qed.



(** ** More on the selection *)

Lemma sort_desc_of_sorted (l : DataFrame) :
  StronglySorted score_ge l -> sort_desc l = l.
Proof.
  induction 1 as [|r l Hs IH Hall]; [reflexivity|].
  cbn [sort_desc fold_right]. fold (sort_desc l). rewrite IH.
  destruct l as [|r' l']; [reflexivity|].
  cbn [insert_desc]. inversion Hall as [|? ? Hr _]; subst.
  unfold score_ge in Hr.
  destruct (Rlt_dec (Score r) (Score r')); [lra | reflexivity].
Qed.

Lemma nlargest_sorted (n : Z) (df : DataFrame) :
  StronglySorted score_ge (nlargest n df).
Proof.
  apply (StronglySorted_app_l _ _ (skipn (Z.to_nat n) (sort_desc df))).
  unfold nlargest. rewrite firstn_skipn. apply sort_desc_sorted.
Qed.

(** X13.  Selecting from a selection: the [n] best rows of the [m] best
    rows of a table are the [min(n, m)] best rows of the table, in the
    same order. *)
Theorem selection_of_selection :
  forall (df : DataFrame) (n m : Z) (w : AutomatedScreening * random.state),
  exists top : DataFrame,
    select_top_clones df m w = (Ok top, w) /\
    select_top_clones top n w = select_top_clones df (Z.min n m) w.
Proof.
  intros df n m w. exists (nlargest m df). split; [reflexivity|].
  unfold select_top_clones. do 2 f_equal.
  unfold nlargest at 1. rewrite (sort_desc_of_sorted _ (nlargest_sorted m df)).
  unfold nlargest. rewrite firstn_firstn, Z2Nat.inj_min. reflexivity.
Qed.

Lemma StronglySorted_app_cross {A : Type} (R : A -> A -> Prop)
  (l1 l2 : list A) :
  StronglySorted R (l1 ++ l2) -> Forall (fun a => Forall (R a) l2) l1.
Proof.
  induction l1 as [|a l1 IH]; intros H; [constructor|].
  simpl in H. inversion H as [|? ? Hs Hall]; subst.
  constructor; [|apply IH; exact Hs].
  apply Forall_app in Hall. apply Hall.
Qed.

(** X14.  The selection is a selection of the best: the rows returned
    come from the table, and together with the rows left out they make up
    the table, every row left out scoring no more than every row
    returned. *)
Theorem selection_takes_the_best :
  forall (df : DataFrame) (n : Z) (w : AutomatedScreening * random.state),
  exists top rest : DataFrame,
    select_top_clones df n w = (Ok top, w) /\
    incl top df /\
    Permutation (top ++ rest) df /\
    Forall (fun a => Forall (fun b => Score b <= Score a) rest) top.
Proof.
  intros df n w.
  exists (nlargest n df), (skipn (Z.to_nat n) (sort_desc df)).
  split; [reflexivity|]. split; [apply nlargest_incl|].
  unfold nlargest. split.
  - rewrite firstn_skipn. apply sort_desc_perm.
  - apply (StronglySorted_app_cross score_ge).
    rewrite firstn_skipn. apply sort_desc_sorted.
Qed.

(** X15.  On a table whose clone identifiers are pairwise distinct, the
    selected rows have pairwise distinct identifiers. *)
Theorem selection_keeps_ids_distinct :
  forall (df : DataFrame) (n : Z) (w : AutomatedScreening * random.state),
    NoDup (map Clone_ID df) ->
    exists top : DataFrame,
      select_top_clones df n w = (Ok top, w) /\
      NoDup (map Clone_ID top).
Proof.
  intros df n w Hnd. exists (nlargest n df). split; [reflexivity|].
  assert (Hp : Permutation (map Clone_ID (sort_desc df)) (map Clone_ID df)).
  { apply Permutation_map. apply sort_desc_perm. }
  apply Permutation_sym in Hp.
  pose proof (Permutation_NoDup Hp Hnd) as Hs.
  rewrite <- (firstn_skipn (Z.to_nat n) (sort_desc df)), map_app in Hs.
  apply NoDup_app_remove_r in Hs. exact Hs.
Qed.

Lemma selection_keeps_ids_distinct_witness :
  NoDup (map Clone_ID table_3) /\
  exists top : DataFrame,
    select_top_clones table_3 2 (campaign_003, zero_entropy) =
      (Ok top, (campaign_003, zero_entropy)) /\
    NoDup (map Clone_ID top).
Proof.
  assert (Hnd : NoDup (map Clone_ID table_3)).
  { cbn. repeat constructor; cbn; intuition discriminate. }
  split; [exact Hnd|].
  exact (selection_keeps_ids_distinct table_3 2
           (campaign_003, zero_entropy) Hnd).
Defined.

Lemma hd_insert_desc (r : ResultRow) (l : DataFrame) :
  hd_error (insert_desc r l) =
  Some (match hd_error l with
        | None => r
        | Some m => if Rlt_dec (Score r) (Score m) then m else r
        end).
Proof.
  destruct l as [|m l]; [reflexivity|]. cbn [insert_desc hd_error].
  destruct (Rlt_dec (Score r) (Score m)); reflexivity.
Qed.

Lemma scan_max_hd (l : DataFrame) (b : ResultRow) :
  scan_max b l =
  match hd_error (sort_desc l) with
  | None => b
  | Some m => if Rlt_dec (Score b) (Score m) then m else b
  end.
Proof.
  revert b. induction l as [|r l IH]; intros b; [reflexivity|].
  cbn [scan_max sort_desc fold_right]. fold (sort_desc l).
  rewrite IH, hd_insert_desc.
  destruct (hd_error (sort_desc l)) as [m|].
  - destruct (Rlt_dec (Score b) (Score r)) as [Hbr|Hbr];
      destruct (Rlt_dec (Score r) (Score m)) as [Hrm|Hrm];
      try (destruct (Rlt_dec (Score b) (Score m)) as [Hbm|Hbm]);
      try (destruct (Rlt_dec (Score b) (Score r)) as [Hbr'|Hbr']);
      try reflexivity; try lra.
  - destruct (Rlt_dec (Score b) (Score r)); reflexivity.
Qed.

Lemma hd_error_firstn {A : Type} (n : nat) (l : list A) :
  (1 <= n)%nat -> hd_error (firstn n l) = hd_error l.
Proof.
  intros H. destruct n as [|n]; [lia|]. destruct l; reflexivity.
Qed.

(** X16.  The best clone named in the closing summary is the first of the
    selected clones, whatever positive count was selected, and no row of
    the table scores more than it. *)
Theorem best_clone_heads_the_selection :
  forall (df : DataFrame) (n : Z),
    (1 <= n)%Z ->
    best_clone df = option_map Clone_ID (hd_error (nlargest n df)) /\
    Forall (fun b => Forall (fun r => Score r <= Score b) df)
           (firstn 1 (nlargest n df)).
Proof.
  intros df n Hn. unfold nlargest.
  split.
  - rewrite hd_error_firstn by lia.
    destruct df as [|r l]; [reflexivity|].
    cbn [best_clone sort_desc fold_right]. fold (sort_desc l).
    rewrite hd_insert_desc, scan_max_hd. reflexivity.
  - rewrite firstn_firstn. replace (Nat.min 1 (Z.to_nat n)) with 1%nat by lia.
    pose proof (sort_desc_sorted df) as Hs.
    pose proof (sort_desc_perm df) as Hp.
    destruct (sort_desc df) as [|b l]; [constructor|].
    cbn [firstn]. constructor; [|constructor].
    inversion Hs as [|? ? _ Hall]; subst.
    apply (Permutation_Forall Hp).
    constructor; [unfold score_ge; lra | exact Hall].
Qed.

Lemma best_clone_heads_the_selection_witness :
  (1 <= 2)%Z /\
  best_clone table_3 = Some "Clone_002"%string /\
  option_map Clone_ID (hd_error (nlargest 2 table_3)) =
    Some "Clone_002"%string.
Proof.
  assert (Hn : (1 <= 2)%Z) by lia.
  destruct (best_clone_heads_the_selection table_3 2 Hn) as [E _].
  destruct nlargest_table_3 as (E2 & _).
  split; [exact Hn|]. rewrite E, E2. split; reflexivity.
Defined.

(** ** More on the score and on growth *)

Lemma round_half_even_le (x y : R) :
  x <= y -> (round_half_even x <= round_half_even y)%Z.
Proof.
  intros H. pose proof (Zfloor_le x y H) as Hf.
  pose proof (Zfloor_bound x) as [Hx1 Hx2].
  pose proof (Zfloor_bound y) as [Hy1 Hy2].
  unfold round_half_even.
  destruct (Z.eq_dec (Zfloor x) (Zfloor y)) as [E|E].
  - rewrite E in *.
    destruct (Rlt_dec (x - IZR (Zfloor y)) (1 / 2));
      destruct (Rlt_dec (y - IZR (Zfloor y)) (1 / 2)); try lia; try lra;
      destruct (Rlt_dec (1 / 2) (x - IZR (Zfloor y)));
      destruct (Rlt_dec (1 / 2) (y - IZR (Zfloor y))); try lia; try lra;
      destruct (Z.even (Zfloor y)); lia.
  - assert (Hlt : (Zfloor x + 1 <= Zfloor y)%Z) by lia.
    destruct (Rlt_dec (x - IZR (Zfloor x)) (1 / 2));
      destruct (Rlt_dec (y - IZR (Zfloor y)) (1 / 2)); try lia;
      destruct (Rlt_dec (1 / 2) (x - IZR (Zfloor x)));
      destruct (Rlt_dec (1 / 2) (y - IZR (Zfloor y))); try lia;
      destruct (Z.even (Zfloor x)); destruct (Z.even (Zfloor y)); lia.
Qed.

Lemma round_le_compat (x y : R) (n : nat) :
  x <= y -> round x n <= round y n.
Proof.
  intros H. unfold round. pose proof (pow10_pos n) as Hp.
  apply Rmult_le_compat_r; [apply Rlt_le, Rinv_0_lt_compat; exact Hp|].
  apply IZR_le, round_half_even_le.
  apply Rmult_le_compat_r; lra.
Qed.

(** X17.  The score never goes down when the harvest is better: with the
    same clone and Day-7 density, a titer and a viability that are both
    at least as high give a score at least as high. *)
Theorem score_monotone_in_harvest :
  forall (c : CellLineClone) (g : random.state) (d t1 t2 v1 v2 : R),
    t1 <= t2 ->
    v1 <= v2 ->
    fst (score (set_day7 c d v1 t1, g)) <= fst (score (set_day7 c d v2 t2, g)).
Proof.
  intros c g d t1 t2 v1 v2 Ht Hv. rewrite !score_pure.
  cbn [fst]. unfold score_spec.
  cbn [set_day7 day7_titer day7_viability growth_rate stability
       glycosylation_pattern aggregation_level].
  apply round_le_compat.
  assert (Hm : Rmin 1.0 (t1 / 5.0) <= Rmin 1.0 (t2 / 5.0)).
  { apply Rle_min_compat_l. lra. }
  lra.
Qed.

Lemma score_monotone_in_harvest_witness :
  1 <= 2.5 /\ 80 <= 90.5 /\
  fst (score (set_day7 clone_001 8e6 80 1, zero_entropy)) <=
  fst (score (set_day7 clone_001 8e6 90.5 2.5, zero_entropy)).
Proof.
  assert (Ht : 1 <= 2.5) by lra.
  assert (Hv : 80 <= 90.5) by lra.
  split; [exact Ht|]. split; [exact Hv|].
  exact (score_monotone_in_harvest clone_001 zero_entropy 8e6 1 2.5 80 90.5
           Ht Hv).
Defined.

(** X18.  At day 0 nothing has grown and nothing has been produced: for
    every clone of a campaign, [grow(0)] returns the seeding density
    0.5e6 and the clone's baseline viability, and [produce_antibody(0)]
    returns the floor 0.1 whatever the noise draw. *)
Theorem day_zero_is_the_baseline :
  forall (n : Z) (pf : string) (now : Z) (g g0 g' : random.state)
         (this : AutomatedScreening) (l : list stage) (c : CellLineClone),
    AutomatedScreening_init n pf now g = (Ok this, g0) ->
    In c (clones (fst (run_stages l (this, g0)))) ->
    fst (grow 0 (c, g')) = (0.5e6, viability c) /\
    fst (produce_antibody 0 (c, g')) = 0.1.
Proof.
  intros n pf now g g0 g' this l c E Hin.
  destruct (campaign_clones_ok n pf now g g0 this l c E Hin)
    as [_ _ Hv _ H0 _ _].
  rewrite grow_pure, produce_antibody_eq. cbn [fst].
  unfold raw_titer, grow_spec. cbn [snd]. split.
  - f_equal.
    + rewrite H0. replace (growth_rate c * 0 * 24) with 0 by lra.
      rewrite exp_0, Rmult_1_r. apply Rmin_left. lra.
    + replace (viability c - 0 * 0.5) with (viability c) by lra.
      apply Rmax_right. lra.
  - replace (base_titer c * 0 / 7 *
             (Rmax 60 (viability c - 0 * 0.5) / 100) *
             fst (random.gauss 1.0 0.1 g')) with 0 by lra.
    apply Rmax_left. lra.
Qed.

Lemma day_zero_is_the_baseline_witness :
  AutomatedScreening_init 3 "96-well" 0 zero_entropy =
    (Ok campaign_003, zero_entropy_18) /\
  In clone_001 (clones (fst (run_stages [] (campaign_003, zero_entropy_18)))) /\
  fst (grow 0 (clone_001, zero_entropy)) = (0.5e6, viability clone_001) /\
  fst (produce_antibody 0 (clone_001, zero_entropy)) = 0.1.
Proof.
  assert (Hin : In clone_001
                  (clones (fst (run_stages []
                                  (campaign_003, zero_entropy_18))))).
  { left. reflexivity. }
  split; [exact init_zero_entropy|]. split; [exact Hin|].
  exact (day_zero_is_the_baseline 3 "96-well" 0 zero_entropy zero_entropy_18
           zero_entropy campaign_003 [] clone_001 init_zero_entropy Hin).
Defined.

Lemma harvest_all_again (e : nat -> R) (k k' : nat)
  (cs : list CellLineClone) :
  harvest_all e k (harvest_all e k' cs) = harvest_all e k cs.
Proof.
  revert k k'. induction cs as [|c cs IH]; intros k k'; [reflexivity|].
  cbn [harvest_all]. rewrite IH. reflexivity.
Qed.

(** X19.  Nothing protects the Day-7 observations from a second harvest:
    it overwrites them, and the clones end exactly as if only the second
    harvest had run, on the generator that the first one left (same
    density and viability, titers from the new draws). *)
Theorem second_harvest_overwrites :
  forall (this : AutomatedScreening) (g : random.state),
    clones (fst (run_stages [Harvest; Harvest] (this, g))) =
    clones (fst (run_stages [Harvest]
                   (this, advance (List.length (clones this)) g))).
Proof.
  intros this g. cbn [run_stages fold_left run_stage].
  rewrite (day_7_harvest_closed this g). cbv zeta. cbn [snd].
  rewrite !day_7_harvest_closed. cbv zeta.
  cbn [fst snd clones with_clones_log advance random.entropy random.cursor].
  apply harvest_all_again.
Qed.
